(** * fast_clean.depends: dependency providers

    A shallow embedding of [src/fast_clean/depends.py]: the two request
    helpers [get_pagination] and [get_sorting], the provider functions of
    [CoreProvider] and the table of registrations the class body makes. *)

From Stdlib Require Import String Ascii List ZArith Bool Lia.
Import ListNotations.
Local Open Scope string_scope.

Set Implicit Arguments.

(** ** Python outcomes

    A call either returns a value or raises.  The exceptions the module
    raises itself are the builtin ones below; an exception that comes out of
    a collaborator (settings repository, factories, validators, managers) is
    kept apart under [External], so that the origin of a failure stays
    visible in the model. *)

Inductive BuiltinError : Type :=
| ValueError (msg : string)
| NotImplementedError (msg : string)
| AssertionError
| IndexError.

Inductive Exception (X : Type) : Type :=
| Builtin (b : BuiltinError)
| External (x : X).

Arguments Builtin {X} b.
Arguments External {X} x.

Inductive Outcome (E A : Type) : Type :=
| Return (a : A)
| Raise (e : E).

Arguments Return {E A} a.
Arguments Raise {E A} e.

Definition outcome_bind {E A B} (o : Outcome E A) (k : A -> Outcome E B)
  : Outcome E B :=
  match o with
  | Return a => k a
  | Raise e => Raise e
  end.

(** A list comprehension whose element expression may raise: elements are
    evaluated left to right and the first exception ends the evaluation. *)
Fixpoint comprehension {E A B} (f : A -> Outcome E B) (xs : list A)
  : Outcome E (list B) :=
  match xs with
  | [] => Return []
  | x :: rest =>
      outcome_bind (f x) (fun y =>
      outcome_bind (comprehension f rest) (fun ys => Return (y :: ys)))
  end.

(** ** Request helpers *)

Module Helpers.

(** [PaginationRequestSchema(page=..., page_size=...)] *)
Record PaginationRequestSchema : Type := {
  page : Z;
  page_size : Z
}.

(** Truth value of an [int | None]: [None] and [0] are falsy. *)
Definition truthy_int (x : option Z) : bool :=
  match x with
  | None => false
  | Some n => negb (Z.eqb n 0)
  end.

(** [x or d] for [x : int | None] and an integer literal [d]. *)
Definition or_int (x : option Z) (d : Z) : Z :=
  match x with
  | None => d
  | Some n => if Z.eqb n 0 then d else n
  end.

(** The page or size a caller passed, [0] standing in for no value. *)
Definition given (x : option Z) : Z :=
  match x with
  | Some n => n
  | None => 0%Z
  end.

Section Pagination.

(** [PaginationRequestSchema] is a pydantic model defined in another
    module.  Its constructor validates the two values it is given: for a
    pair it does not accept it raises a validation error, an accepted pair
    is stored as it is.  Which pairs are accepted is a parameter. *)
Variable ValidationError : Type.
Variable validation : Z -> Z -> option ValidationError.

(** [PaginationRequestSchema(page=page, page_size=page_size)] *)
Definition PaginationRequestSchema_init (page page_size : Z)
  : Outcome ValidationError PaginationRequestSchema :=
  match validation page page_size with
  | Some error => Raise error
  | None => Return {| page := page; page_size := page_size |}
  end.

(** [def get_pagination(page=None, page_size=None)] *)
Definition get_pagination (page page_size : option Z)
  : Outcome ValidationError PaginationRequestSchema :=
  PaginationRequestSchema_init (or_int page 1) (or_int page_size 10).

End Pagination.

(** [str.split(',')]: every comma separates, empty pieces are kept, and the
    result always has at least one piece. *)
Fixpoint split_comma (s : string) : list string :=
  match s with
  | EmptyString => [EmptyString]
  | String c rest =>
      if Ascii.eqb c "," then EmptyString :: split_comma rest
      else match split_comma rest with
           | [] => [String c EmptyString]
           | piece :: pieces => String c piece :: pieces
           end
  end.

(** [s[0]]: indexing an empty string raises [IndexError]. *)
Definition index0 (s : string) : Outcome BuiltinError ascii :=
  match s with
  | EmptyString => Raise IndexError
  | String c _ => Return c
  end.

(** [s[1:]]: slicing never raises. *)
Definition slice_from1 (s : string) : string :=
  match s with
  | EmptyString => EmptyString
  | String _ rest => rest
  end.

(** Truth value of a [str | None]: [None] and [''] are falsy. *)
Definition truthy_str (s : option string) : bool :=
  match s with
  | None => false
  | Some EmptyString => false
  | Some (String _ _) => true
  end.

Section Sorting.

(** [stringcase.snakecase], a third-party function. *)
Variable snakecase : string -> string.

(** The element expression of the comprehension in [get_sorting]:
    [s[0] + snakecase(s[1:]) if s[0] == '-' else snakecase(s)].
    The condition [s[0] == '-'] is evaluated first. *)
Definition sorting_field (s : string) : Outcome BuiltinError string :=
  outcome_bind (index0 s) (fun c0 =>
    if Ascii.eqb c0 "-"
    then outcome_bind (index0 s) (fun c => Return (String c (snakecase (slice_from1 s))))
    else Return (snakecase s)).

(** [def get_sorting(sorting=None)] *)
Definition get_sorting (sorting : option string)
  : Outcome BuiltinError (list string) :=
  if negb (truthy_str sorting) then Return []
  else match sorting with
       | None => Return []
       | Some s => comprehension sorting_field (split_comma s)
       end.

(** What the claims expect for one field: snake case, with a leading minus
    sign kept as it is. *)
Definition converted (s : string) : string :=
  match s with
  | EmptyString => snakecase EmptyString
  | String c rest =>
      if Ascii.eqb c "-" then String "-" (snakecase rest) else snakecase s
  end.

End Sorting.

End Helpers.

(** ** Collaborators

    [depends.py] imports its data types and collaborators from sibling
    modules and third-party packages.  They are parameters of the model: the
    opaque data they exchange, and the functions whose results the providers
    pass on. *)

Class Externals : Type := {
  (** opaque data *)
  RedisDsn : Type;
  Redis : Type;
  SecretKey : Type;
  StoragePath : Type;
  CoreS3SettingsSchema : Type;
  ModelDump : Type;
  S3StorageParamsSchema : Type;
  CoreCacheSettingsSchema : Type;
  CoreKafkaSettingsSchema : Type;
  CacheRepository : Type;
  StorageRepository : Type;
  CryptographyService : Type;
  KafkaBroker : Type;
  ExternalError : Type;
  (** [CryptographicAlgorithmEnum] and the member the source names *)
  CryptographicAlgorithmEnum : Type;
  AES_GCM : CryptographicAlgorithmEnum;
  (** the client constructor used by the Redis manager *)
  from_url : RedisDsn -> Redis;
  (** [storage_settings.s3.model_dump()] *)
  model_dump : CoreS3SettingsSchema -> ModelDump;
  (** [S3StorageParamsSchema.model_validate(...)] *)
  model_validate : ModelDump -> Outcome ExternalError S3StorageParamsSchema;
  (** [CacheManager.init(cache_settings, redis)]: from the arguments and the
      repository published so far, the repository published afterwards, or
      an exception. *)
  cache_manager_init :
    CoreCacheSettingsSchema -> option Redis -> option CacheRepository ->
    Outcome ExternalError (option CacheRepository);
  (** [BrokerFactory.make_static(kafka_settings)] *)
  make_static : CoreKafkaSettingsSchema -> Outcome ExternalError KafkaBroker;
  (** [CryptographyServiceFactory.make], by the key the factory holds *)
  cryptography_make :
    SecretKey -> CryptographicAlgorithmEnum ->
    Outcome ExternalError CryptographyService
}.

Module Depends.

Section Providers.

Context {X : Externals}.

Definition Exc : Type := Exception ExternalError.

(** *** Settings records (the fields the providers read) *)

Record CoreSettingsSchema : Type := {
  redis_dsn : option RedisDsn;
  secret_key : SecretKey
}.

Record CoreStorageSettingsSchema : Type := {
  provider : string;
  s3 : option CoreS3SettingsSchema;
  dir : option StoragePath
}.

Inductive SettingsSchema : Type :=
| Schema_CoreSettings
| Schema_CoreCacheSettings
| Schema_CoreStorageSettings
| Schema_CoreKafkaSettings.

Definition schema_record (s : SettingsSchema) : Type :=
  match s with
  | Schema_CoreSettings => CoreSettingsSchema
  | Schema_CoreCacheSettings => CoreCacheSettingsSchema
  | Schema_CoreStorageSettings => CoreStorageSettingsSchema
  | Schema_CoreKafkaSettings => CoreKafkaSettingsSchema
  end.

(** [SettingsRepositoryProtocol]: [get(schema_type)] gives the validated
    record of that type or raises. *)
Record SettingsRepositoryProtocol : Type := {
  get : forall s : SettingsSchema, Outcome ExternalError (schema_record s)
}.

Inductive SettingsSourceEnum : Type := ENV.

Record SettingsRepositoryFactoryProtocol : Type := {
  settings_make :
    SettingsSourceEnum -> Outcome ExternalError SettingsRepositoryProtocol
}.

(** *** Storage backend descriptors *)

Inductive StorageTypeEnum : Type := S3 | LOCAL.

Record LocalStorageParamsSchema : Type := { path : StoragePath }.

Inductive StorageParams : Type :=
| S3Params (p : S3StorageParamsSchema)
| LocalParams (p : LocalStorageParamsSchema).

Record StorageRepositoryFactoryProtocol : Type := {
  make : StorageTypeEnum -> StorageParams ->
         Outcome ExternalError StorageRepository
}.

(** *** Services built here *)

Record CryptographyServiceFactory : Type := { factory_key : SecretKey }.

(** [RedisLockService(redis)] keeps the handle it is given. *)
Record RedisLockService : Type := { lock_redis : Redis }.

(** *** Process state

    The two class attributes the providers read and the managers assign,
    and the log of the calls made to effectful collaborators, oldest
    first. *)

Inductive Event : Type :=
| CallRedisManagerInit (dsn : RedisDsn)
| OpenRedisConnection (dsn : RedisDsn)
| CallCacheManagerInit (cache_settings : CoreCacheSettingsSchema)
                       (redis : option Redis)
| CallStorageFactoryMake (type : StorageTypeEnum) (params : StorageParams)
| CallCryptographyFactoryMake (key : SecretKey)
                              (algorithm : CryptographicAlgorithmEnum)
| CallBrokerMakeStatic (kafka_settings : CoreKafkaSettingsSchema).

Record World : Type := {
  RedisManager_redis : option Redis;
  CacheManager_cache_repository : option CacheRepository;
  events : list Event
}.

(** A provider body: it runs in a world and leaves a world, also when it
    raises (assignments made before the exception stay). *)
Definition M (A : Type) : Type := World -> Outcome Exc A * World.

Definition ret {A} (a : A) : M A := fun w => (Return a, w).

Definition raise {A} (e : Exc) : M A := fun w => (Raise e, w).

Definition bind {A B} (m : M A) (k : A -> M B) : M B :=
  fun w =>
    match m w with
    | (Return a, w') => k a w'
    | (Raise e, w') => (Raise e, w')
    end.

Definition emit (e : Event) : M unit :=
  fun w =>
    (Return tt,
     {| RedisManager_redis := RedisManager_redis w;
        CacheManager_cache_repository := CacheManager_cache_repository w;
        events := events w ++ [e] |}).

Definition read_redis : M (option Redis) :=
  fun w => (Return (RedisManager_redis w), w).

Definition write_redis (r : option Redis) : M unit :=
  fun w =>
    (Return tt,
     {| RedisManager_redis := r;
        CacheManager_cache_repository := CacheManager_cache_repository w;
        events := events w |}).

Definition read_cache_repository : M (option CacheRepository) :=
  fun w => (Return (CacheManager_cache_repository w), w).

Definition write_cache_repository (c : option CacheRepository) : M unit :=
  fun w =>
    (Return tt,
     {| RedisManager_redis := RedisManager_redis w;
        CacheManager_cache_repository := c;
        events := events w |}).

(** The result of a collaborator, with its exception marked as such. *)
Definition call {A} (o : Outcome ExternalError A) : M A :=
  fun w =>
    match o with
    | Return a => (Return a, w)
    | Raise x => (Raise (External x), w)
    end.

Notation "x <- m ;; k" := (bind m (fun x => k))
  (at level 61, m at next level, right associativity).
Notation "m ;; k" := (bind m (fun _ => k))
  (at level 61, right associativity).

(** *** The singleton managers *)

(** Modelled from the spec: [RedisManager.init], whose module is not part of
    the sources at hand.  "[init] is idempotent: if already initialized, it
    is a no-op; otherwise it constructs the shared client from configuration
    and publishes it."  Constructing the client is the one place where a
    connection to Redis is opened. *)
Definition RedisManager_init (redis_dsn : RedisDsn) : M unit :=
  emit (CallRedisManagerInit redis_dsn) ;;
  current <- read_redis ;;
  match current with
  | Some _ => ret tt
  | None =>
      emit (OpenRedisConnection redis_dsn) ;;
      write_redis (Some (from_url redis_dsn))
  end.

(** [CacheManager.init(cache_settings, redis)]: the call is logged and the
    published repository becomes what the collaborator decides. *)
Definition CacheManager_init (cache_settings : CoreCacheSettingsSchema)
  (redis : option Redis) : M unit :=
  emit (CallCacheManagerInit cache_settings redis) ;;
  current <- read_cache_repository ;;
  published <- call (cache_manager_init cache_settings redis current) ;;
  write_cache_repository published.

(** *** Provider functions of [CoreProvider] *)

Definition settings_get (settings_repository : SettingsRepositoryProtocol)
  (s : SettingsSchema) : M (schema_record s) :=
  call (get settings_repository s).

Definition get_settings_repository
  (settings_repository_factory : SettingsRepositoryFactoryProtocol)
  : M SettingsRepositoryProtocol :=
  call (settings_make settings_repository_factory ENV).

Definition get_settings (settings_repository : SettingsRepositoryProtocol)
  : M CoreSettingsSchema :=
  settings_get settings_repository Schema_CoreSettings.

(** The value the generator yields. *)
Definition get_broker_repository
  (settings_repository : SettingsRepositoryProtocol) : M KafkaBroker :=
  kafka_settings <- settings_get settings_repository Schema_CoreKafkaSettings ;;
  emit (CallBrokerMakeStatic kafka_settings) ;;
  call (make_static kafka_settings).

Definition get_cache_repository
  (settings_repository : SettingsRepositoryProtocol) : M CacheRepository :=
  settings <- settings_get settings_repository Schema_CoreSettings ;;
  match redis_dsn settings with
  | Some dsn => RedisManager_init dsn
  | None => ret tt
  end ;;
  cache_settings <- settings_get settings_repository Schema_CoreCacheSettings ;;
  before <- read_cache_repository ;;
  match before with
  | None =>
      redis <- read_redis ;;
      CacheManager_init cache_settings redis
  | Some _ => ret tt
  end ;;
  after <- read_cache_repository ;;
  match after with
  | Some cache_repository => ret cache_repository
  | None => raise (Builtin (ValueError "Cache is not initialized"))
  end.

Definition storage_make (factory : StorageRepositoryFactoryProtocol)
  (type : StorageTypeEnum) (params : StorageParams) : M StorageRepository :=
  emit (CallStorageFactoryMake type params) ;;
  call (make factory type params).

Definition not_allowed (provider : string) : BuiltinError :=
  NotImplementedError ("Storage " ++ provider ++ " not allowed").

Definition get_storage_repository
  (settings_repository : SettingsRepositoryProtocol)
  (storage_repository_factory : StorageRepositoryFactoryProtocol)
  : M StorageRepository :=
  storage_settings <-
    settings_get settings_repository Schema_CoreStorageSettings ;;
  match String.eqb (provider storage_settings) "s3", s3 storage_settings with
  | true, Some block =>
      params <- call (model_validate (model_dump block)) ;;
      storage_make storage_repository_factory S3 (S3Params params)
  | _, _ =>
      match String.eqb (provider storage_settings) "local",
            dir storage_settings with
      | true, Some directory =>
          storage_make storage_repository_factory LOCAL
            (LocalParams {| path := directory |})
      | _, _ => raise (Builtin (not_allowed (provider storage_settings)))
      end
  end.

Definition get_cryptography_service_factory (settings : CoreSettingsSchema)
  : CryptographyServiceFactory :=
  {| factory_key := secret_key settings |}.

Definition get_cryptography_service
  (cryptography_service_factory : CryptographyServiceFactory)
  : M CryptographyService :=
  emit (CallCryptographyFactoryMake
          (factory_key cryptography_service_factory) AES_GCM) ;;
  call (cryptography_make (factory_key cryptography_service_factory) AES_GCM).

Definition get_lock_service (settings : CoreSettingsSchema)
  : M RedisLockService :=
  match redis_dsn settings with
  | None => raise (Builtin AssertionError)
  | Some dsn =>
      RedisManager_init dsn ;;
      redis <- read_redis ;;
      match redis with
      | None => raise (Builtin AssertionError)
      | Some handle => ret {| lock_redis := handle |}
      end
  end.

(** The events a run adds to the log. *)
Definition new_events (before after : World) : list Event :=
  skipn (length (events before)) (events after).

(** A world with further events logged. *)
Definition logged (w : World) (es : list Event) : World :=
  {| RedisManager_redis := RedisManager_redis w;
     CacheManager_cache_repository := CacheManager_cache_repository w;
     events := events w ++ es |}.

(** What a provider hands on when it returns a collaborator's result. *)
Definition propagate {A} (o : Outcome ExternalError A) : Outcome Exc A :=
  match o with
  | Return a => Return a
  | Raise x => Raise (External x)
  end.

Definition is_some {A} (o : option A) : bool :=
  match o with
  | Some _ => true
  | None => false
  end.

(** The condition under which [get_storage_repository] reaches one of its
    two [return] statements. *)
Definition matching_block (c : CoreStorageSettingsSchema) : bool :=
  (String.eqb (provider c) "s3" && is_some (s3 c))
  || (String.eqb (provider c) "local" && is_some (dir c)).

(** The condition in the words of the specification: exactly one of the two
    sub-blocks is present, and it is the one of the chosen provider. *)
Definition exactly_one_block_matching (c : CoreStorageSettingsSchema) : bool :=
  (String.eqb (provider c) "s3" && is_some (s3 c) && negb (is_some (dir c)))
  || (String.eqb (provider c) "local" && is_some (dir c)
      && negb (is_some (s3 c))).

(** The handle published once [RedisManager.init] has run, and the events
    that run logs. *)
Definition redis_published (dsn : RedisDsn) (w : World) : Redis :=
  match RedisManager_redis w with
  | Some handle => handle
  | None => from_url dsn
  end.

Definition redis_init_events (dsn : RedisDsn) (w : World) : list Event :=
  CallRedisManagerInit dsn ::
  match RedisManager_redis w with
  | Some _ => []
  | None => [OpenRedisConnection dsn]
  end.

(** Reading the log: the calls of each manager's [init], the connections
    opened, the algorithms asked of the cryptography factory. *)
Fixpoint redis_init_calls (es : list Event) : list RedisDsn :=
  match es with
  | [] => []
  | CallRedisManagerInit dsn :: rest => dsn :: redis_init_calls rest
  | _ :: rest => redis_init_calls rest
  end.

Fixpoint cache_init_calls (es : list Event)
  : list (CoreCacheSettingsSchema * option Redis) :=
  match es with
  | [] => []
  | CallCacheManagerInit cs r :: rest => (cs, r) :: cache_init_calls rest
  | _ :: rest => cache_init_calls rest
  end.

Fixpoint connections_opened (es : list Event) : list RedisDsn :=
  match es with
  | [] => []
  | OpenRedisConnection dsn :: rest => dsn :: connections_opened rest
  | _ :: rest => connections_opened rest
  end.

Fixpoint algorithms_requested (es : list Event)
  : list CryptographicAlgorithmEnum :=
  match es with
  | [] => []
  | CallCryptographyFactoryMake _ a :: rest => a :: algorithms_requested rest
  | _ :: rest => algorithms_requested rest
  end.

Definition is_storage_make (e : Event) : bool :=
  match e with
  | CallStorageFactoryMake _ _ => true
  | _ => false
  end.

End Providers.

Notation "x <- m ;; k" := (bind m (fun x => k))
  (at level 61, m at next level, right associativity).
Notation "m ;; k" := (bind m (fun _ => k))
  (at level 61, right associativity).

End Depends.

(** ** The class body of [CoreProvider]

    What the class statement declares: its default scope and, attribute by
    attribute, the capability produced and the way the attribute is (or is
    not) wrapped in [provide]. *)

Module Graph.

Inductive Scope : Type := APP | REQUEST.

Inductive Capability : Type :=
| SettingsRepositoryFactoryProtocol
| StorageRepositoryFactoryProtocol
| SettingsRepositoryProtocol
| CoreSettingsSchema
| KafkaBroker
| CacheRepositoryProtocol
| StorageRepositoryProtocol
| AsyncSession
| SessionManagerProtocol
| SeedService
| TransactionService
| CryptographyServiceFactory
| CryptographyServiceProtocol
| LockServiceProtocol.

Definition capability_eqb (a b : Capability) : bool :=
  match a, b with
  | SettingsRepositoryFactoryProtocol, SettingsRepositoryFactoryProtocol
  | StorageRepositoryFactoryProtocol, StorageRepositoryFactoryProtocol
  | SettingsRepositoryProtocol, SettingsRepositoryProtocol
  | CoreSettingsSchema, CoreSettingsSchema
  | KafkaBroker, KafkaBroker
  | CacheRepositoryProtocol, CacheRepositoryProtocol
  | StorageRepositoryProtocol, StorageRepositoryProtocol
  | AsyncSession, AsyncSession
  | SessionManagerProtocol, SessionManagerProtocol
  | SeedService, SeedService
  | TransactionService, TransactionService
  | CryptographyServiceFactory, CryptographyServiceFactory
  | CryptographyServiceProtocol, CryptographyServiceProtocol
  | LockServiceProtocol, LockServiceProtocol => true
  | _, _ => false
  end.

(** How an attribute of the class body is decorated. *)
Inductive Decoration : Type :=
| Plain                                (* no [provide] at all *)
| Provide (scope : option Scope).      (* [provide] / [provide(scope=...)] *)

Record Member : Type := {
  attribute : string;
  produces : Capability;
  decoration : Decoration
}.

(** [scope = Scope.REQUEST] *)
Definition CoreProvider_scope : Scope := REQUEST.

Definition CoreProvider_body : list Member :=
  [ {| attribute := "settings_repository_factory";
       produces := SettingsRepositoryFactoryProtocol;
       decoration := Provide (Some APP) |};
    {| attribute := "storage_repository_factory";
       produces := StorageRepositoryFactoryProtocol;
       decoration := Provide (Some APP) |};
    {| attribute := "get_settings_repository";
       produces := SettingsRepositoryProtocol;
       decoration := Provide (Some APP) |};
    {| attribute := "get_settings";
       produces := CoreSettingsSchema;
       decoration := Provide (Some APP) |};
    {| attribute := "get_broker_repository";
       produces := KafkaBroker;
       decoration := Plain |};
    {| attribute := "get_cache_repository";
       produces := CacheRepositoryProtocol;
       decoration := Provide (Some APP) |};
    {| attribute := "get_storage_repository";
       produces := StorageRepositoryProtocol;
       decoration := Provide (Some APP) |};
    {| attribute := "get_async_session";
       produces := AsyncSession;
       decoration := Provide None |};
    {| attribute := "get_session_manager";
       produces := SessionManagerProtocol;
       decoration := Provide None |};
    {| attribute := "seed_service";
       produces := SeedService;
       decoration := Provide None |};
    {| attribute := "transaction_service";
       produces := TransactionService;
       decoration := Provide None |};
    {| attribute := "get_cryptography_service_factory";
       produces := CryptographyServiceFactory;
       decoration := Provide (Some APP) |};
    {| attribute := "get_cryptography_service";
       produces := CryptographyServiceProtocol;
       decoration := Provide (Some APP) |};
    {| attribute := "get_lock_service";
       produces := LockServiceProtocol;
       decoration := Provide (Some APP) |} ].

(** Only attributes wrapped in [provide] become nodes of the provider
    graph. *)
Definition is_registered (m : Member) : bool :=
  match decoration m with
  | Plain => false
  | Provide _ => true
  end.

Definition registered : list Member := filter is_registered CoreProvider_body.

(** The scope tag of a member: the one given to [provide], else the default
    of the class. *)
Definition scope_tag (m : Member) : Scope :=
  match decoration m with
  | Provide (Some s) => s
  | _ => CoreProvider_scope
  end.

Definition provider_for (c : Capability) : option Member :=
  find (fun m => capability_eqb (produces m) c) registered.

(** The capabilities of the shared infrastructure, and those of one unit of
    work. *)
Definition shared_infrastructure : list Capability :=
  [ SettingsRepositoryFactoryProtocol; StorageRepositoryFactoryProtocol;
    SettingsRepositoryProtocol; CoreSettingsSchema; CacheRepositoryProtocol;
    StorageRepositoryProtocol; CryptographyServiceFactory;
    CryptographyServiceProtocol; LockServiceProtocol ].

Definition per_unit_of_work : list Capability :=
  [ AsyncSession; SessionManagerProtocol; SeedService; TransactionService ].

(** Modelled from the spec: the scope resolver of the injection framework,
    which is no part of the sources at hand.  A scope instance maps
    capabilities to constructed values; a REQUEST scope opens empty inside
    the APP scope; resolution returns the value memoized "at the level
    matching its declared scope tag" and otherwise invokes the construction
    function and stores the value at that level.  Only the set of memoized
    capabilities and whether the constructor ran are kept. *)
Record ScopeChain : Type := {
  app_instance : list Capability;
  request_instance : list Capability
}.

Definition open_request (app : list Capability) : ScopeChain :=
  {| app_instance := app; request_instance := [] |}.

Definition instance_at (tag : Scope) (c : ScopeChain) : list Capability :=
  match tag with
  | APP => app_instance c
  | REQUEST => request_instance c
  end.

Definition memoized (m : Member) (c : ScopeChain) : bool :=
  existsb (capability_eqb (produces m)) (instance_at (scope_tag m) c).

Definition store (m : Member) (c : ScopeChain) : ScopeChain :=
  match scope_tag m with
  | APP => {| app_instance := produces m :: app_instance c;
              request_instance := request_instance c |}
  | REQUEST => {| app_instance := app_instance c;
                  request_instance := produces m :: request_instance c |}
  end.

(** [resolve m c]: whether the construction function of [m] ran, and the
    scope chain afterwards. *)
Definition resolve (m : Member) (c : ScopeChain) : bool * ScopeChain :=
  if memoized m c then (false, c) else (true, store m c).

End Graph.

(** ** A concrete set of collaborators

    Used to run the providers on explicit inputs. *)

Module Demo.

Inductive Algorithm : Type := Aes_gcm | Aes_cbc.

(** A cache manager with an in-memory and a Redis backend; any other
    provider name publishes nothing. *)
Definition demo_cache_init (cache_settings : string) (redis : option string)
  (current : option string) : Outcome string (option string) :=
  match current with
  | Some _ => Return current
  | None =>
      if String.eqb cache_settings "in_memory" then Return (Some "memory")
      else if String.eqb cache_settings "redis" then
        match redis with
        | Some handle => Return (Some ("redis@" ++ handle))
        | None => Raise "redis handle missing"
        end
      else Return None
  end.

#[export] Instance externals : Externals := {|
  RedisDsn := string;
  Redis := string;
  SecretKey := string;
  StoragePath := string;
  CoreS3SettingsSchema := string;
  ModelDump := string;
  S3StorageParamsSchema := string;
  CoreCacheSettingsSchema := string;
  CoreKafkaSettingsSchema := string;
  CacheRepository := string;
  StorageRepository := string;
  CryptographyService := string;
  KafkaBroker := string;
  ExternalError := string;
  CryptographicAlgorithmEnum := Algorithm;
  AES_GCM := Aes_gcm;
  from_url := fun dsn => "client:" ++ dsn;
  model_dump := fun block => block;
  model_validate := fun dump =>
    if String.eqb dump "" then Raise "bucket required" else Return dump;
  cache_manager_init := demo_cache_init;
  make_static := fun kafka => Return ("broker:" ++ kafka);
  cryptography_make := fun key algorithm =>
    match algorithm with
    | Aes_gcm => Return ("aes-gcm:" ++ key)
    | Aes_cbc => Return ("aes-cbc:" ++ key)
    end
|}.

Definition world0 : Depends.World :=
  {| Depends.RedisManager_redis := None;
     Depends.CacheManager_cache_repository := None;
     Depends.events := [] |}.

Definition settings_with (dsn : option string) : Depends.CoreSettingsSchema :=
  {| Depends.redis_dsn := dsn; Depends.secret_key := "k3y" |}.

(** A settings repository answering from fixed records. *)
Definition repository (core : Depends.CoreSettingsSchema) (cache : string)
  (storage : Depends.CoreStorageSettingsSchema)
  : Depends.SettingsRepositoryProtocol :=
  {| Depends.get := fun s =>
       match s return Outcome string (Depends.schema_record s) with
       | Depends.Schema_CoreSettings => Return core
       | Depends.Schema_CoreCacheSettings => Return cache
       | Depends.Schema_CoreStorageSettings => Return storage
       | Depends.Schema_CoreKafkaSettings => Return "kafka:9092"
       end |}.

Definition storage_factory : Depends.StorageRepositoryFactoryProtocol :=
  {| Depends.make := fun type params =>
       match type, params with
       | Depends.S3, Depends.S3Params bucket => Return ("s3://" ++ bucket)
       | Depends.LOCAL, Depends.LocalParams p =>
           Return ("file://" ++ Depends.path p)
       | _, _ => Raise "parameters do not fit the storage type"
       end |}.

Definition both_blocks : Depends.CoreStorageSettingsSchema :=
  {| Depends.provider := "s3";
     Depends.s3 := Some "bucket";
     Depends.dir := Some "/data" |}.

Definition local_only : Depends.CoreStorageSettingsSchema :=
  {| Depends.provider := "local";
     Depends.s3 := None;
     Depends.dir := Some "/data" |}.

Definition ftp_settings : Depends.CoreStorageSettingsSchema :=
  {| Depends.provider := "ftp";
     Depends.s3 := None;
     Depends.dir := Some "/data" |}.


Definition demo_repository (dsn : option string) (cache : string)
  (storage : Depends.CoreStorageSettingsSchema)
  : Depends.SettingsRepositoryProtocol :=
  repository (settings_with dsn) cache storage.

End Demo.

(** ** Nested form data

    [get_nested_form_data]: the keys of the submitted form are rewritten
    from bracket to dot notation, the flat dictionary is handed to
    [flatten_dict.unflatten], and every top-level value that came back as a
    dictionary is replaced by its JSON text. *)

Module Form.

(** [k.replace('[', '.')] *)
Fixpoint replace_open_bracket (k : string) : string :=
  match k with
  | EmptyString => EmptyString
  | String c rest =>
      String (if Ascii.eqb c "[" then "."%char else c)
             (replace_open_bracket rest)
  end.

(** [k.replace(']', '')] *)
Fixpoint remove_close_bracket (k : string) : string :=
  match k with
  | EmptyString => EmptyString
  | String c rest =>
      if Ascii.eqb c "]" then remove_close_bracket rest
      else String c (remove_close_bracket rest)
  end.

(** [k.replace('[', '.').replace(']', '')] *)
Definition dot_key (k : string) : string :=
  remove_close_bracket (replace_open_bracket k).

Fixpoint occurs (c : ascii) (k : string) : bool :=
  match k with
  | EmptyString => false
  | String c' rest => Ascii.eqb c' c || occurs c rest
  end.

Section Dictionaries.

Variable V : Type.

(** A [dict] with string keys: the items in insertion order. *)
Definition dict : Type := list (string * V).

(** [d[k] = v]: an existing key keeps its place and takes the new value, a
    new key goes to the end. *)
Fixpoint dict_set (d : dict) (k : string) (v : V) : dict :=
  match d with
  | [] => [(k, v)]
  | (k', v') :: rest =>
      if String.eqb k' k then (k', v) :: rest
      else (k', v') :: dict_set rest k v
  end.

(** [d.get(k)] *)
Fixpoint dict_get (d : dict) (k : string) : option V :=
  match d with
  | [] => None
  | (k', v') :: rest => if String.eqb k' k then Some v' else dict_get rest k
  end.

Definition keys (d : dict) : list string := map fst d.

(** The comprehension [{dot_key(k): v for k, v in items}], built item by
    item from the empty dictionary, [d] being what is built so far. *)
Definition dot_data_from (d : dict) (items : list (string * V)) : dict :=
  fold_left (fun acc kv => dict_set acc (dot_key (fst kv)) (snd kv)) items d.

Definition dot_data (items : list (string * V)) : dict :=
  dot_data_from [] items.

End Dictionaries.

Section NestedForm.

(** The values of a form, the nested dictionaries [unflatten] builds, and
    the exceptions of the two library calls. *)
Variables V D E : Type.

(** What a value of [nested_data] can be: a form value as submitted, a
    dictionary made by [unflatten], or the text put in its place. *)
Inductive PyValue : Type :=
| FormValue (v : V)
| DictValue (d : D)
| StrValue (s : string).

(** [unflatten(dot_data, 'dot')] and [json.dumps(v)] *)
Variable unflatten : dict V -> Outcome E (dict PyValue).
Variable json_dumps : D -> Outcome E string.

(** The loop
    [for k, v in nested_data.items(): if isinstance(v, dict): nested_data[k] = json.dumps(v)]:
    [todo] are the items still to visit, [d] the dictionary being updated. *)
Fixpoint dump_dicts (todo : list (string * PyValue)) (d : dict PyValue)
  : Outcome E (dict PyValue) :=
  match todo with
  | [] => Return d
  | (k, DictValue x) :: rest =>
      outcome_bind (json_dumps x) (fun text =>
        dump_dicts rest (dict_set d k (StrValue text)))
  | _ :: rest => dump_dicts rest d
  end.

(** [async def get_nested_form_data(request)], from the items of
    [await request.form()] to the items of the [FormData] returned. *)
Definition get_nested_form_data (form_items : list (string * V))
  : Outcome E (dict PyValue) :=
  outcome_bind (unflatten (dot_data form_items)) (fun nested_data =>
    dump_dicts nested_data nested_data).

(** One item after the loop, seen on its own. *)
Definition dumped (item : string * PyValue)
  : Outcome E (string * PyValue) :=
  match item with
  | (k, DictValue x) =>
      outcome_bind (json_dumps x) (fun text => Return (k, StrValue text))
  | _ => Return item
  end.

Definition is_dict (v : PyValue) : bool :=
  match v with
  | DictValue _ => true
  | _ => false
  end.

End NestedForm.

End Form.

(** ** Counting for [get_sorting] *)

Module SortingCount.

Fixpoint count_commas (s : string) : nat :=
  match s with
  | EmptyString => 0
  | String c rest =>
      (if Ascii.eqb c "," then 1 else 0) + count_commas rest
  end.

Definition is_empty (s : string) : bool :=
  match s with
  | EmptyString => true
  | String _ _ => false
  end.

End SortingCount.

(** ** Sequences of provider calls

    The container calls the provider functions one after another in the one
    process; what a call leaves in the two managers is what the next call
    finds. *)

Module Sequences.
Import Depends.

Section Calls.

Context {X : Externals}.





(** The world in which [get_cache_repository] turns to the cache manager:
    the given one, after [RedisManager.init] when a DSN is configured. *)
Definition after_redis (st : CoreSettingsSchema) (w : World) : World :=
  match redis_dsn st with
  | Some dsn => snd (RedisManager_init dsn w)
  | None => w
  end.

(** Events other than those of the two managers. *)
Definition is_manager_event (e : Event) : bool :=
  match e with
  | CallRedisManagerInit _ | OpenRedisConnection _
  | CallCacheManagerInit _ _ => true
  | _ => false
  end.

(** A discriminator and the parameter record that goes with it. *)
Definition well_paired (type : StorageTypeEnum) (params : StorageParams)
  : bool :=
  match type, params with
  | S3, S3Params _ => true
  | LOCAL, LocalParams _ => true
  | _, _ => false
  end.

End Calls.

End Sequences.

(** ** Parameters of the provider functions

    The capabilities each function of the class body asks for, read off its
    signature.  The four providers given as classes ([provide(SomeClass)])
    take their parameters from constructors defined elsewhere and are not
    listed. *)

Module Signatures.
Import Graph.

Definition CoreProvider_parameters : list (string * list Capability) :=
  [ ("get_settings_repository", [SettingsRepositoryFactoryProtocol]);
    ("get_settings", [SettingsRepositoryProtocol]);
    ("get_broker_repository", [SettingsRepositoryProtocol]);
    ("get_cache_repository", [SettingsRepositoryProtocol]);
    ("get_storage_repository",
       [SettingsRepositoryProtocol; StorageRepositoryFactoryProtocol]);
    ("get_async_session", [SettingsRepositoryProtocol]);
    ("get_session_manager", [AsyncSession]);
    ("get_cryptography_service_factory", [CoreSettingsSchema]);
    ("get_cryptography_service", [CryptographyServiceFactory]);
    ("get_lock_service", [CoreSettingsSchema]) ].

(** The parameters of a member, where this file shows them: [None] for a
    provider given as a class. *)
Definition parameters (m : Member) : option (list Capability) :=
  option_map snd
    (find (fun entry => String.eqb (fst entry) (attribute m))
          CoreProvider_parameters).

(** [function_needs a b]: the capability [a] is produced by a registered
    provider function, and that function has a parameter of capability [b].
    What the constructors of the class providers need is no part of this
    relation. *)
Definition function_needs (a b : Capability) : Prop :=
  exists m ps,
    In m registered /\ produces m = a
    /\ parameters m = Some ps /\ In b ps.

Inductive function_needs_transitively : Capability -> Capability -> Prop :=
| needs_step (a b : Capability) :
    function_needs a b -> function_needs_transitively a b
| needs_trans (a b c : Capability) :
    function_needs a b -> function_needs_transitively b c ->
    function_needs_transitively a c.

Definition scope_of (c : Capability) : option Scope :=
  option_map scope_tag (provider_for c).

(** A measure that falls along every parameter of a provider function.  The
    two factories, which functions take as parameters, are at the bottom;
    the two services given as classes, which no function takes, are put
    above everything a function produces. *)
Definition rank (c : Capability) : nat :=
  match c with
  | SettingsRepositoryFactoryProtocol | StorageRepositoryFactoryProtocol
  | KafkaBroker => 0
  | SettingsRepositoryProtocol => 1
  | CoreSettingsSchema | CacheRepositoryProtocol | StorageRepositoryProtocol
  | AsyncSession => 2
  | SessionManagerProtocol | CryptographyServiceFactory
  | LockServiceProtocol => 3
  | CryptographyServiceProtocol => 4
  | SeedService | TransactionService => 5
  end.

End Signatures.

(** ** Sample collaborators for form data *)

Module Samples.
Import Form.

(** The part of a key before its first dot, and the part after it. *)
Fixpoint split_dot (k : string) : string * option string :=
  match k with
  | EmptyString => (EmptyString, None)
  | String c rest =>
      if Ascii.eqb c "." then (EmptyString, Some rest)
      else let (head, tail) := split_dot rest in (String c head, tail)
  end.

(** A stand-in for [unflatten] that nests one level deep. *)
Definition sample_unflatten (d : dict string)
  : Outcome string (dict (PyValue string (dict string))) :=
  Return
    (fold_left
       (fun acc kv =>
          match split_dot (fst kv) with
          | (head, None) => dict_set acc head (FormValue _ (snd kv))
          | (head, Some tail) =>
              let inner :=
                match dict_get acc head with
                | Some (DictValue _ sub) => sub
                | _ => []
                end in
              dict_set acc head (DictValue _ (dict_set inner tail (snd kv)))
          end)
       d []).

(** A stand-in for [json.dumps] on a flat dictionary of strings; a value
    named [<file>] stands for an upload, which cannot be serialised. *)
Fixpoint sample_dumps (d : dict string) : Outcome string string :=
  match d with
  | [] => Return "."
  | (k, v) :: rest =>
      if String.eqb v "<file>" then Raise "not JSON serializable"
      else outcome_bind (sample_dumps rest) (fun text =>
             Return (k ++ "=" ++ v ++ ";" ++ text))
  end.

(** A validation that accepts positive values only, as field constraints
    of the kind [gt=0] make it. *)
Definition positive_fields (page page_size : Z) : option string :=
  if ((page <=? 0) || (page_size <=? 0))%Z
  then Some "Input should be greater than 0"
  else None.

Definition sample_form : list (string * string) :=
  [ ("title", "report"); ("user[name]", "ann"); ("user[age]", "41");
    ("user.name", "bob") ].

End Samples.

(** * Properties *)

(** ** Request helpers *)

Module HelpersFacts.
Import Helpers.

Lemma or_int_truthy (x : option Z) (d : Z) :
  or_int x d = if truthy_int x then given x else d.
Proof.
  destruct x as [n|]; simpl; [|reflexivity].
  destruct (Z.eqb n 0); reflexivity.
Qed.

Section PaginationFacts.

Variable ValidationError : Type.
Variable validation : Z -> Z -> option ValidationError.

(** C9, as the code has it: [get_pagination] hands the constructor of the
    schema the page when it is truthy and 1 otherwise, the page size when it
    is truthy and 10 otherwise.  Where the constructor accepts the two
    values the record returned holds exactly them; where it rejects them
    the call raises its validation error and returns nothing.  Zero for
    either is answered like an absent value, by the defaults 1 and 10. *)
Theorem get_pagination_defaults (p ps : option Z) :
  let page_given := if truthy_int p then given p else 1%Z in
  let size_given := if truthy_int ps then given ps else 10%Z in
  get_pagination validation p ps
  = PaginationRequestSchema_init validation page_given size_given
  /\ (validation page_given size_given = None ->
      get_pagination validation p ps
      = Return {| page := page_given; page_size := size_given |})
  /\ (forall error, validation page_given size_given = Some error ->
      get_pagination validation p ps = Raise error)
  /\ (forall r, get_pagination validation p ps = Return r ->
      page r = page_given /\ page_size r = size_given)
  /\ get_pagination validation (Some 0%Z) (Some 0%Z)
     = get_pagination validation None None
  /\ get_pagination validation None None
     = PaginationRequestSchema_init validation 1 10.
Proof.
  cbv zeta. unfold get_pagination. rewrite !or_int_truthy.
  unfold PaginationRequestSchema_init.
  repeat split.
  - intros H. rewrite H. reflexivity.
  - intros error H. rewrite H. reflexivity.
  - destruct (validation _ _); [discriminate|].
    injection H as <-. reflexivity.
  - destruct (validation _ _); [discriminate|].
    injection H as <-. reflexivity.
Qed.

End PaginationFacts.

Example get_pagination_given :
  get_pagination Samples.positive_fields (Some 3%Z) (Some 25%Z)
  = Return {| page := 3; page_size := 25 |}.
Proof. reflexivity. Qed.

Example get_pagination_zero :
  get_pagination Samples.positive_fields (Some 0%Z) None
  = Return {| page := 1; page_size := 10 |}.
Proof. reflexivity. Qed.

Section SortingFacts.

Variable snakecase : string -> string.

Lemma split_comma_nonempty (s : string) : split_comma s <> [].
Proof.
  destruct s as [|c rest]; simpl; [discriminate|].
  destruct (Ascii.eqb c ","); [discriminate|].
  destruct (split_comma rest); discriminate.
Qed.

Lemma comprehension_length {E A B} (f : A -> Outcome E B) xs ys :
  comprehension f xs = Return ys -> length ys = length xs.
Proof.
  revert ys; induction xs as [|x xs IH]; simpl; intros ys H.
  - injection H as <-. reflexivity.
  - destruct (f x) as [y|e]; simpl in H; [|discriminate].
    destruct (comprehension f xs) as [zs|e]; simpl in H; [|discriminate].
    injection H as <-. simpl. f_equal. apply IH. reflexivity.
Qed.

(** The only exception [sorting_field] raises is [IndexError], and it
    raises on the empty field exactly. *)
Lemma sorting_field_raises (s : string) e :
  sorting_field snakecase s = Raise e -> s = "" /\ e = IndexError.
Proof.
  destruct s as [|c rest]; unfold sorting_field, index0, outcome_bind.
  - intros H; injection H as <-. split; reflexivity.
  - destruct (Ascii.eqb c "-"); discriminate.
Qed.

Lemma sorting_field_nonempty (c : ascii) (rest : string) :
  sorting_field snakecase (String c rest)
  = Return (if Ascii.eqb c "-" then String "-" (snakecase rest)
            else snakecase (String c rest)).
Proof.
  unfold sorting_field, index0, outcome_bind, slice_from1.
  destruct (Ascii.eqb_spec c "-"%char) as [->|_]; reflexivity.
Qed.

Lemma comprehension_fields_ok (xs : list string) :
  Forall (fun s => s <> "") xs ->
  comprehension (sorting_field snakecase) xs = Return (map (converted snakecase) xs).
Proof.
  induction 1 as [|s xs Hs _ IH]; simpl; [reflexivity|].
  destruct s as [|c rest]; [contradiction|].
  rewrite sorting_field_nonempty, IH. reflexivity.
Qed.

Lemma comprehension_empty_field (xs : list string) :
  In "" xs -> comprehension (sorting_field snakecase) xs = Raise IndexError.
Proof.
  induction xs as [|s xs IH]; simpl; [contradiction|].
  intros [->|Hin]; [reflexivity|].
  destruct (sorting_field snakecase s) as [y|e] eqn:Hs.
  - simpl. rewrite (IH Hin). reflexivity.
  - apply sorting_field_raises in Hs as [_ ->]. reflexivity.
Qed.

(** [get_sorting] returns the empty sequence exactly for [None] and for the
    empty string. *)
Lemma get_sorting_empty_iff (sorting : option string) :
  get_sorting snakecase sorting = Return [] <->
  sorting = None \/ sorting = Some "".
Proof.
  split.
  - destruct sorting as [[|c rest]|]; auto.
    unfold get_sorting; simpl truthy_str; simpl negb; cbv iota.
    intros H. apply comprehension_length in H.
    destruct (split_comma (String c rest)) eqn:Hsp; [|discriminate].
    exfalso. exact (split_comma_nonempty _ Hsp).
  - intros [->| ->]; reflexivity.
Qed.

(** On a string whose fields are all non-empty, [get_sorting] converts each
    field and keeps a leading minus sign. *)
Lemma get_sorting_fields (s : string) :
  s <> "" ->
  Forall (fun f => f <> "") (split_comma s) ->
  get_sorting snakecase (Some s) = Return (map (converted snakecase) (split_comma s)).
Proof.
  intros Hs Hall. destruct s as [|c rest]; [contradiction|].
  unfold get_sorting; simpl truthy_str; simpl negb; cbv iota.
  apply comprehension_fields_ok; assumption.
Qed.

(** A non-empty string with an empty field makes [get_sorting] raise. *)
Lemma get_sorting_empty_field (s : string) :
  s <> "" -> In "" (split_comma s) ->
  get_sorting snakecase (Some s) = Raise IndexError.
Proof.
  intros Hs Hin. destruct s as [|c rest]; [contradiction|].
  unfold get_sorting; simpl truthy_str; simpl negb; cbv iota.
  apply comprehension_empty_field; assumption.
Qed.

(** C10: the claim has [get_sorting] convert every comma-separated field of
    a non-empty string; on a string with an empty field (a lone comma, a
    trailing comma, two commas in a row) the code raises [IndexError]
    instead of returning the converted fields. *)
Theorem get_sorting_raises_on_empty_field :
  get_sorting snakecase (Some ",") = Raise IndexError
  /\ get_sorting snakecase (Some "name,") = Raise IndexError
  /\ get_sorting snakecase (Some "a,,b") = Raise IndexError.
Proof.
  repeat split; apply get_sorting_empty_field;
    solve [discriminate | simpl; auto].
Qed.

End SortingFacts.

Example split_comma_pieces :
  split_comma "createdAt,-userName" = ["createdAt"; "-userName"]
  /\ split_comma "a,,b" = ["a"; ""; "b"]
  /\ split_comma "," = [""; ""].
Proof. repeat split. Qed.

Example get_sorting_descending :
  get_sorting (fun s => "<" ++ s ++ ">") (Some "createdAt,-userName")
  = Return ["<createdAt>"; "-<userName>"].
Proof. reflexivity. Qed.

End HelpersFacts.

(** ** Provider functions *)

Module DependsFacts.
Import Depends.

Section Runs.

Context {X : Externals}.

Lemma skipn_prefix {A} (l es : list A) : skipn (length l) (l ++ es) = es.
Proof. induction l as [|a l IH]; simpl; [reflexivity | exact IH]. Qed.

Lemma new_events_logged (w : World) (es : list Event) :
  new_events w (logged w es) = es.
Proof. unfold new_events, logged; simpl. apply skipn_prefix. Qed.

Lemma new_events_same (w : World) : new_events w w = [].
Proof.
  unfold new_events. rewrite <- (app_nil_r (events w)) at 2.
  apply skipn_prefix.
Qed.

(** One run of [RedisManager.init]: the handle is published (the old one if
    there was one), the cache manager is left alone. *)
Lemma RedisManager_init_run (dsn : RedisDsn) (w : World) :
  RedisManager_init dsn w
  = (Return tt,
     {| RedisManager_redis := Some (redis_published dsn w);
        CacheManager_cache_repository := CacheManager_cache_repository w;
        events := events w ++ redis_init_events dsn w |}).
Proof.
  unfold RedisManager_init, redis_published, redis_init_events,
    bind, emit, read_redis, write_redis, ret; simpl.
  destruct (RedisManager_redis w) as [h|]; simpl.
  - reflexivity.
  - rewrite <- app_assoc. reflexivity.
Qed.

Lemma RedisManager_init_idempotent (dsn dsn' : RedisDsn) (w : World) :
  RedisManager_redis (snd (RedisManager_init dsn' (snd (RedisManager_init dsn w))))
  = RedisManager_redis (snd (RedisManager_init dsn w)).
Proof. rewrite !RedisManager_init_run. reflexivity. Qed.

(** *** [get_storage_repository] *)

Ltac unfold_run :=
  unfold settings_get, storage_make, CacheManager_init, bind, emit, call,
    ret, raise, read_redis, write_redis, read_cache_repository,
    write_cache_repository, propagate, logged.

Lemma matching_block_spec (cfg : CoreStorageSettingsSchema) :
  matching_block cfg = true <->
  (provider cfg = "s3" /\ s3 cfg <> None)
  \/ (provider cfg = "local" /\ dir cfg <> None).
Proof.
  unfold matching_block.
  destruct (String.eqb_spec (provider cfg) "s3") as [Hs|Hs],
           (String.eqb_spec (provider cfg) "local") as [Hl|Hl],
           (s3 cfg) as [b|], (dir cfg) as [d|]; simpl;
    split; intros H; try discriminate; try reflexivity;
    try (left; split; [assumption | discriminate]);
    try (right; split; [assumption | discriminate]);
    destruct H as [[H1 H2]|[H1 H2]]; congruence.
Qed.

(** The whole of a run, by the branch taken. *)
Lemma get_storage_repository_run
  (sr : SettingsRepositoryProtocol) (f : StorageRepositoryFactoryProtocol)
  (w : World) (cfg : CoreStorageSettingsSchema)
  (Hcfg : get sr Schema_CoreStorageSettings = Return cfg) :
  get_storage_repository sr f w =
  match String.eqb (provider cfg) "s3", s3 cfg with
  | true, Some block =>
      match model_validate (model_dump block) with
      | Return params =>
          (propagate (make f S3 (S3Params params)),
           logged w [CallStorageFactoryMake S3 (S3Params params)])
      | Raise x => (Raise (External x), w)
      end
  | _, _ =>
      match String.eqb (provider cfg) "local", dir cfg with
      | true, Some d =>
          (propagate (make f LOCAL (LocalParams {| path := d |})),
           logged w [CallStorageFactoryMake LOCAL (LocalParams {| path := d |})])
      | _, _ => (Raise (Builtin (not_allowed (provider cfg))), w)
      end
  end.
Proof.
  unfold get_storage_repository. unfold_run. rewrite Hcfg.
  destruct (String.eqb (provider cfg) "s3"), (s3 cfg) as [block|];
    try (destruct (String.eqb (provider cfg) "local"), (dir cfg) as [d|];
         try reflexivity;
         destruct (make f LOCAL (LocalParams {| path := d |})); reflexivity).
  destruct (model_validate (model_dump block)) as [params|x]; [|reflexivity].
  destruct (make f S3 (S3Params params)); reflexivity.
Qed.

Lemma get_storage_repository_no_settings
  (sr : SettingsRepositoryProtocol) (f : StorageRepositoryFactoryProtocol)
  (w : World) (x : ExternalError)
  (Hcfg : get sr Schema_CoreStorageSettings = Raise x) :
  get_storage_repository sr f w = (Raise (External x), w).
Proof.
  unfold get_storage_repository. unfold_run. rewrite Hcfg. reflexivity.
Qed.

(** C1: with provider 's3' and the s3 block present the result is what the
    factory's [make] gives for the S3 discriminator and the validated
    parameters (a failed validation is raised and the factory is not
    called); with provider 'local' and the directory present it is what
    [make] gives for LOCAL and the directory as path; in every other case
    'Storage ... not allowed' is raised and no backend is made. *)
Theorem get_storage_repository_dispatch
  (sr : SettingsRepositoryProtocol) (f : StorageRepositoryFactoryProtocol)
  (w : World) (cfg : CoreStorageSettingsSchema)
  (Hcfg : get sr Schema_CoreStorageSettings = Return cfg) :
  (forall block params,
      provider cfg = "s3" -> s3 cfg = Some block ->
      model_validate (model_dump block) = Return params ->
      get_storage_repository sr f w
      = (propagate (make f S3 (S3Params params)),
         logged w [CallStorageFactoryMake S3 (S3Params params)]))
  /\ (forall block x,
      provider cfg = "s3" -> s3 cfg = Some block ->
      model_validate (model_dump block) = Raise x ->
      get_storage_repository sr f w = (Raise (External x), w))
  /\ (forall d,
      provider cfg = "local" -> dir cfg = Some d ->
      get_storage_repository sr f w
      = (propagate (make f LOCAL (LocalParams {| path := d |})),
         logged w [CallStorageFactoryMake LOCAL (LocalParams {| path := d |})]))
  /\ (~ (provider cfg = "s3" /\ s3 cfg <> None) ->
      ~ (provider cfg = "local" /\ dir cfg <> None) ->
      get_storage_repository sr f w
      = (Raise (Builtin (not_allowed (provider cfg))), w)).
Proof.
  rewrite (get_storage_repository_run sr f w Hcfg).
  repeat split.
  - intros block params Hp Hb Hv. rewrite Hp, Hb, Hv. reflexivity.
  - intros block x Hp Hb Hv. rewrite Hp, Hb, Hv. reflexivity.
  - intros d Hp Hd. rewrite Hp, Hd. reflexivity.
  - intros Hs Hl.
    destruct (String.eqb_spec (provider cfg) "s3") as [Es|Es];
      destruct (s3 cfg) as [block|];
      try (exfalso; apply Hs; split; [assumption | discriminate]);
      destruct (String.eqb_spec (provider cfg) "local") as [El|El];
      destruct (dir cfg) as [d|];
      try (exfalso; apply Hl; split; [assumption | discriminate]);
      reflexivity.
Qed.

(** C2, as the code has it: the 'Storage ... not allowed' error is raised
    exactly when the sub-block of the chosen provider is missing (the s3
    block for 's3', the directory for 'local', anything for another
    provider); whether the other sub-block is present plays no part. *)
Theorem storage_not_allowed_iff
  (sr : SettingsRepositoryProtocol) (f : StorageRepositoryFactoryProtocol)
  (w : World) (cfg : CoreStorageSettingsSchema)
  (Hcfg : get sr Schema_CoreStorageSettings = Return cfg) :
  (fst (get_storage_repository sr f w)
     = Raise (Builtin (not_allowed (provider cfg)))
   <-> matching_block cfg = false)
  /\ (matching_block cfg = true <->
      (provider cfg = "s3" /\ s3 cfg <> None)
      \/ (provider cfg = "local" /\ dir cfg <> None)).
Proof.
  split; [|apply matching_block_spec].
  rewrite (get_storage_repository_run sr f w Hcfg).
  unfold matching_block, propagate.
  destruct (String.eqb (provider cfg) "s3"), (s3 cfg) as [block|]; simpl;
    try (destruct (String.eqb (provider cfg) "local"), (dir cfg) as [d|];
         simpl; try (split; reflexivity);
         destruct (make f LOCAL (LocalParams {| path := d |}));
         simpl; split; discriminate);
    destruct (model_validate (model_dump block)) as [params|x]; simpl;
    try (split; discriminate);
    destruct (make f S3 (S3Params params)); simpl; split; discriminate.
Qed.

(** C8: whatever the settings and the factory answer, a run of
    [get_storage_repository] leaves the handles of [RedisManager] and
    [CacheManager] as they were; all it adds to the log is the call of the
    storage factory. *)
Theorem get_storage_repository_frame
  (sr : SettingsRepositoryProtocol) (f : StorageRepositoryFactoryProtocol)
  (w : World) :
  RedisManager_redis (snd (get_storage_repository sr f w))
    = RedisManager_redis w
  /\ CacheManager_cache_repository (snd (get_storage_repository sr f w))
    = CacheManager_cache_repository w
  /\ forallb is_storage_make
       (new_events w (snd (get_storage_repository sr f w))) = true.
Proof.
  destruct (get sr Schema_CoreStorageSettings) as [cfg|x] eqn:Hcfg.
  - rewrite (get_storage_repository_run sr f w Hcfg).
    destruct (String.eqb (provider cfg) "s3"), (s3 cfg) as [block|];
      try (destruct (String.eqb (provider cfg) "local"), (dir cfg) as [d|]);
      try (destruct (model_validate (model_dump block)) as [params|y]);
      cbn [snd]; rewrite ?new_events_logged, ?new_events_same;
      repeat split.
  - rewrite (get_storage_repository_no_settings sr f w Hcfg).
    cbn [snd]. rewrite new_events_same. repeat split.
Qed.

(** *** [get_cache_repository] *)

(** The world in which [get_cache_repository] looks at the cache manager:
    the given one, after [RedisManager.init] when a DSN is configured. *)
Lemma get_cache_repository_run
  (sr : SettingsRepositoryProtocol) (w : World)
  (st : CoreSettingsSchema) (cs : CoreCacheSettingsSchema)
  (Hst : get sr Schema_CoreSettings = Return st)
  (Hcs : get sr Schema_CoreCacheSettings = Return cs) :
  let w1 := match redis_dsn st with
            | Some dsn => snd (RedisManager_init dsn w)
            | None => w
            end in
  get_cache_repository sr w =
  match CacheManager_cache_repository w with
  | Some c => (Return c, w1)
  | None =>
      let call_init := CallCacheManagerInit cs (RedisManager_redis w1) in
      match cache_manager_init cs (RedisManager_redis w1) None with
      | Raise x => (Raise (External x), logged w1 [call_init])
      | Return None =>
          (Raise (Builtin (ValueError "Cache is not initialized")),
           logged w1 [call_init])
      | Return (Some c) =>
          (Return c,
           {| RedisManager_redis := RedisManager_redis w1;
              CacheManager_cache_repository := Some c;
              events := events w1 ++ [call_init] |})
      end
  end.
Proof.
  unfold get_cache_repository, settings_get.
  unfold bind at 1. unfold call at 1. rewrite Hst.
  destruct (redis_dsn st) as [dsn|].
  - unfold bind at 1. rewrite RedisManager_init_run. cbn [snd].
    unfold_run. rewrite Hcs. cbn.
    destruct (CacheManager_cache_repository w) as [c|]; [reflexivity|].
    cbn.
    destruct (cache_manager_init cs (Some (redis_published dsn w)) None)
      as [[c|]|x]; reflexivity.
  - unfold_run. rewrite Hcs. cbn.
    destruct w as [r [c|] es]; cbn; [reflexivity|].
    destruct (cache_manager_init cs r None) as [[c|]|x]; reflexivity.
Qed.

Lemma redis_init_calls_app (es es' : list Event) :
  redis_init_calls (es ++ es') = (redis_init_calls es ++ redis_init_calls es')%list.
Proof.
  induction es as [|e es IH]; simpl; [reflexivity|].
  destruct e; simpl; rewrite IH; reflexivity.
Qed.


Ltac log_norm :=
  unfold new_events, logged;
  cbn [events snd fst RedisManager_redis CacheManager_cache_repository];
  rewrite <- ?app_assoc, ?skipn_prefix, ?skipn_all;
  cbn.

Ltac settle r :=
  intros; try discriminate;
  repeat match goal with
    | H : Some _ = Some _ |- _ => injection H as <-
    | H : Return _ = Return _ |- _ => injection H as <-
    | H : ?a = Return (Some _), H' : ?a = Return None |- _ =>
        rewrite H in H'; discriminate
    | H : ?a = Raise _, H' : ?a = Return None |- _ =>
        rewrite H in H'; discriminate
    | H : ?a = Return _, H' : ?a = Raise _ |- _ =>
        rewrite H in H'; discriminate
    | H : ?a = Return None, H' : ?a = Return (Some _) |- _ =>
        rewrite H in H'; discriminate
    | H : ?a = Return (Some ?c0), H' : ?a = Return (Some ?c) |- _ =>
        rewrite H in H'; injection H' as Heq; subst c
    | H : ?a = Raise ?x0, H' : ?a = Raise ?x |- _ =>
        rewrite H in H'; injection H' as Heq; subst x
    end;
  repeat split; try (destruct r; reflexivity); reflexivity.

(** C3: [get_cache_repository] initialises on first use.  A repository
    already published is returned and [CacheManager.init] is not called.
    With none published it calls [CacheManager.init] once, with the cache
    settings and the current Redis handle, and what that call publishes is
    what it returns; an exception of the call is passed on; when the call
    returns and has published nothing the 'Cache is not initialized' error
    is raised.  [RedisManager.init] is called exactly when a DSN is
    configured, and the handle is published then.  A value is returned only
    if it is the published repository. *)
Theorem get_cache_repository_lazy_init
  (sr : SettingsRepositoryProtocol) (w : World)
  (st : CoreSettingsSchema) (cs : CoreCacheSettingsSchema)
  (Hst : get sr Schema_CoreSettings = Return st)
  (Hcs : get sr Schema_CoreCacheSettings = Return cs) :
  let out := get_cache_repository sr w in
  let log := new_events w (snd out) in
  let redis_now := RedisManager_redis (snd out) in
  (forall c, CacheManager_cache_repository w = Some c ->
     fst out = Return c
     /\ CacheManager_cache_repository (snd out) = Some c
     /\ cache_init_calls log = [])
  /\ (CacheManager_cache_repository w = None ->
      cache_init_calls log = [(cs, redis_now)])
  /\ redis_init_calls log
     = match redis_dsn st with Some dsn => [dsn] | None => [] end
  /\ (CacheManager_cache_repository w = None ->
      cache_manager_init cs redis_now None = Return None ->
      fst out = Raise (Builtin (ValueError "Cache is not initialized"))
      /\ CacheManager_cache_repository (snd out) = None)
  /\ (forall c, fst out = Return c ->
      CacheManager_cache_repository (snd out) = Some c)
  /\ redis_now
     = match redis_dsn st with
       | Some dsn => Some (redis_published dsn w)
       | None => RedisManager_redis w
       end
  /\ (forall c, CacheManager_cache_repository w = None ->
      cache_manager_init cs redis_now None = Return (Some c) ->
      fst out = Return c
      /\ CacheManager_cache_repository (snd out) = Some c)
  /\ (forall x, CacheManager_cache_repository w = None ->
      cache_manager_init cs redis_now None = Raise x ->
      fst out = Raise (External x)
      /\ CacheManager_cache_repository (snd out) = None).
Proof.
  intros out log redis_now. subst log redis_now out.
  rewrite (get_cache_repository_run sr w Hst Hcs). cbv zeta.
  destruct w as [r cache es].
  destruct (redis_dsn st) as [dsn|];
    rewrite ?RedisManager_init_run;
    unfold redis_init_events, redis_published; cbn [snd RedisManager_redis
      CacheManager_cache_repository events].
  - destruct cache as [c0|];
      [|destruct (cache_manager_init cs
                    (Some match r with Some h => h | None => from_url dsn end)
                    None) as [[c0|]|x0] eqn:Hinit];
      refine (conj _ (conj _ (conj _ (conj _ (conj _ (conj _ (conj _ _)))))));
      log_norm; settle r.
  - destruct cache as [c0|];
      [|destruct (cache_manager_init cs r None) as [[c0|]|x0] eqn:Hinit];
      refine (conj _ (conj _ (conj _ (conj _ (conj _ (conj _ (conj _ _)))))));
      log_norm; settle r.
Qed.

(** *** [get_lock_service] *)

Lemma get_lock_service_run
  (settings : CoreSettingsSchema) (dsn : RedisDsn) (w : World)
  (Hdsn : redis_dsn settings = Some dsn) :
  get_lock_service settings w
  = (Return {| lock_redis := redis_published dsn w |},
     snd (RedisManager_init dsn w)).
Proof.
  unfold get_lock_service. rewrite Hdsn.
  unfold bind at 1. rewrite RedisManager_init_run. reflexivity.
Qed.

(** C4: with a DSN configured, [get_lock_service] returns a lock service
    holding the handle that [RedisManager] has published (the one published
    before the call, if any); neither assertion fails; and the run changes
    the world exactly as its one call of [RedisManager.init] does, so a
    connection is opened only there, and only when none was published. *)
Theorem get_lock_service_shared_handle
  (settings : CoreSettingsSchema) (dsn : RedisDsn) (w : World)
  (Hdsn : redis_dsn settings = Some dsn) :
  let out := get_lock_service settings w in
  fst out = Return {| lock_redis := redis_published dsn w |}
  /\ RedisManager_redis (snd out) = Some (redis_published dsn w)
  /\ (forall handle, RedisManager_redis w = Some handle ->
      redis_published dsn w = handle
      /\ connections_opened (new_events w (snd out)) = [])
  /\ snd out = snd (RedisManager_init dsn w)
  /\ fst out <> Raise (Builtin AssertionError).
Proof.
  intros out; subst out.
  rewrite (get_lock_service_run settings w Hdsn), RedisManager_init_run.
  cbn [fst snd RedisManager_redis].
  refine (conj eq_refl (conj eq_refl (conj _ (conj eq_refl _)))).
  - intros handle Hw. unfold redis_published, redis_init_events.
    rewrite Hw. log_norm. split; reflexivity.
  - discriminate.
Qed.


(** *** [get_cryptography_service] *)

Lemma get_cryptography_service_run
  (factory : CryptographyServiceFactory) (w : World) :
  get_cryptography_service factory w
  = (propagate (cryptography_make (factory_key factory) AES_GCM),
     logged w [CallCryptographyFactoryMake (factory_key factory) AES_GCM]).
Proof.
  unfold get_cryptography_service. unfold_run.
  destruct (cryptography_make (factory_key factory) AES_GCM); reflexivity.
Qed.

(** C5, as the code has it: whatever the settings, the cryptography service
    is asked of the factory with the one algorithm AES_GCM; the settings
    only supply the secret key the factory is made with. *)
Theorem get_cryptography_service_fixed_algorithm
  (settings : CoreSettingsSchema) (w : World) :
  let factory := get_cryptography_service_factory settings in
  let out := get_cryptography_service factory w in
  factory_key factory = secret_key settings
  /\ fst out = propagate (cryptography_make (secret_key settings) AES_GCM)
  /\ new_events w (snd out)
     = [CallCryptographyFactoryMake (secret_key settings) AES_GCM]
  /\ algorithms_requested (new_events w (snd out)) = [AES_GCM].
Proof.
  cbv zeta. rewrite get_cryptography_service_run.
  unfold get_cryptography_service_factory; cbn [factory_key fst snd].
  rewrite new_events_logged. repeat split.
Qed.

(** *** [get_broker_repository] *)

(** Called directly, the function yields what [BrokerFactory.make_static]
    gives for the Kafka settings of the settings repository. *)
Lemma get_broker_repository_run
  (sr : SettingsRepositoryProtocol) (w : World)
  (kafka : CoreKafkaSettingsSchema)
  (Hk : get sr Schema_CoreKafkaSettings = Return kafka) :
  get_broker_repository sr w
  = (propagate (make_static kafka), logged w [CallBrokerMakeStatic kafka]).
Proof.
  unfold get_broker_repository. unfold_run. rewrite Hk.
  destruct (make_static kafka); reflexivity.
Qed.

End Runs.

End DependsFacts.

(** ** The provider graph *)

Module GraphFacts.
Import Graph.

Example registered_attributes :
  map attribute registered
  = [ "settings_repository_factory"; "storage_repository_factory";
      "get_settings_repository"; "get_settings"; "get_cache_repository";
      "get_storage_repository"; "get_async_session"; "get_session_manager";
      "seed_service"; "transaction_service";
      "get_cryptography_service_factory"; "get_cryptography_service";
      "get_lock_service" ].
Proof. reflexivity. Qed.

Lemma capability_eqb_refl (c : Capability) : capability_eqb c c = true.
Proof. destruct c; reflexivity. Qed.

(** A request scope that has just been opened holds nothing at its own
    level, so a member tagged REQUEST is constructed in it. *)
Lemma request_member_constructed (m : Member) (app : list Capability) :
  scope_tag m = REQUEST -> fst (resolve m (open_request app)) = true.
Proof.
  intros H. unfold resolve, memoized. rewrite H. reflexivity.
Qed.

(** A member tagged APP whose value the APP scope holds is not constructed
    again when a request scope opens. *)
Lemma app_member_reused (m : Member) (app : list Capability) :
  scope_tag m = APP ->
  resolve m (open_request (produces m :: app))
  = (false, open_request (produces m :: app)).
Proof.
  intros H. unfold resolve, memoized. rewrite H. simpl.
  rewrite capability_eqb_refl. reflexivity.
Qed.

(** C6: the nine providers of shared infrastructure are registered with the
    APP scope tag; the database session, the session manager, the seed
    service and the transaction service are registered without a scope of
    their own and so carry the REQUEST default of the class; hence each of
    these four is constructed anew in every request scope that opens. *)
Theorem CoreProvider_scope_tags :
  CoreProvider_scope = REQUEST
  /\ map (fun m => (produces m, decoration m, scope_tag m)) registered
     = [ (SettingsRepositoryFactoryProtocol, Provide (Some APP), APP);
         (StorageRepositoryFactoryProtocol, Provide (Some APP), APP);
         (SettingsRepositoryProtocol, Provide (Some APP), APP);
         (CoreSettingsSchema, Provide (Some APP), APP);
         (CacheRepositoryProtocol, Provide (Some APP), APP);
         (StorageRepositoryProtocol, Provide (Some APP), APP);
         (AsyncSession, Provide None, REQUEST);
         (SessionManagerProtocol, Provide None, REQUEST);
         (SeedService, Provide None, REQUEST);
         (TransactionService, Provide None, REQUEST);
         (CryptographyServiceFactory, Provide (Some APP), APP);
         (CryptographyServiceProtocol, Provide (Some APP), APP);
         (LockServiceProtocol, Provide (Some APP), APP) ]
  /\ map (fun c => option_map scope_tag (provider_for c)) shared_infrastructure
     = repeat (Some APP) 9
  /\ map (fun c => option_map scope_tag (provider_for c)) per_unit_of_work
     = repeat (Some REQUEST) 4
  /\ forall (app : list Capability) (c : Capability),
       In c per_unit_of_work ->
       exists m, provider_for c = Some m
                 /\ fst (resolve m (open_request app)) = true.
Proof.
  repeat split.
  intros app c Hc. simpl in Hc.
  destruct Hc as [<-|[<-|[<-|[<-|[]]]]];
    (eexists; split; [reflexivity | apply request_member_constructed; reflexivity]).
Qed.

(** C7: the class body defines [get_broker_repository] without [provide],
    the only attribute left so; the provider graph has no node that
    produces the broker. *)
Theorem broker_not_registered :
  provider_for KafkaBroker = None
  /\ map (fun m => (attribute m, produces m))
       (filter (fun m => negb (is_registered m)) CoreProvider_body)
     = [("get_broker_repository", KafkaBroker)]
  /\ length registered = 13.
Proof. repeat split. Qed.

End GraphFacts.

(** ** Runs on explicit inputs *)

Module Runs.
Import Depends DependsFacts Demo.

Lemma get_storage_repository_dispatch_witness :
  get_storage_repository
    (Demo.demo_repository None "in_memory" Demo.local_only)
    Demo.storage_factory Demo.world0
  = (Return "file:///data",
     logged Demo.world0
       [CallStorageFactoryMake LOCAL (LocalParams {| path := "/data" |})]).
Proof.
  destruct (get_storage_repository_dispatch
              (Demo.demo_repository None "in_memory" Demo.local_only)
              Demo.storage_factory Demo.world0 (cfg := Demo.local_only)
              eq_refl) as (_ & _ & H & _).
  exact (H "/data" eq_refl eq_refl).
Defined.

(** C2 as stated fails: with provider 's3' and both sub-blocks present the
    configuration does not have exactly one block, yet no error is raised:
    the factory is called and its S3 instance returned. *)
Lemma storage_both_blocks_accepted :
  exactly_one_block_matching Demo.both_blocks = false
  /\ get_storage_repository
       (Demo.demo_repository None "in_memory" Demo.both_blocks)
       Demo.storage_factory Demo.world0
     = (Return "s3://bucket",
        logged Demo.world0 [CallStorageFactoryMake S3 (S3Params "bucket")]).
Proof. split; reflexivity. Qed.

Lemma storage_not_allowed_iff_witness :
  fst (get_storage_repository
         (Demo.demo_repository None "in_memory" Demo.ftp_settings)
         Demo.storage_factory Demo.world0)
  = Raise (Builtin (NotImplementedError "Storage ftp not allowed")).
Proof.
  destruct (storage_not_allowed_iff
              (Demo.demo_repository None "in_memory" Demo.ftp_settings)
              Demo.storage_factory Demo.world0 (cfg := Demo.ftp_settings)
              eq_refl) as [[_ H] _].
  exact (H eq_refl).
Defined.

Lemma get_cache_repository_lazy_init_witness :
  fst (get_cache_repository
         (Demo.demo_repository (Some "redis://cache") "redis" Demo.local_only)
         Demo.world0)
  = Return "redis@client:redis://cache"
  /\ CacheManager_cache_repository
       (snd (get_cache_repository
               (Demo.demo_repository (Some "redis://cache") "redis"
                  Demo.local_only)
               Demo.world0))
     = Some "redis@client:redis://cache".
Proof.
  destruct (get_cache_repository_lazy_init
              (Demo.demo_repository (Some "redis://cache") "redis"
                 Demo.local_only)
              Demo.world0
              (st := Demo.settings_with (Some "redis://cache"))
              (cs := "redis") eq_refl eq_refl)
    as (_ & _ & _ & _ & _ & _ & H & _).
  exact (H "redis@client:redis://cache" eq_refl eq_refl).
Defined.

Lemma get_lock_service_shared_handle_witness :
  fst (get_lock_service (Demo.settings_with (Some "redis://lock")) Demo.world0)
  = Return {| lock_redis := "client:redis://lock" |}.
Proof.
  exact (proj1 (get_lock_service_shared_handle
                  (Demo.settings_with (Some "redis://lock"))
                  (dsn := "redis://lock") Demo.world0 eq_refl)).
Defined.

(** C9 as stated fails: a negative page is truthy, so it is handed to the
    constructor as it is; a constructor that accepts positive values only
    raises, and no record with that page is returned. *)
Lemma get_pagination_negative_rejected :
  Helpers.truthy_int (Some (-2)%Z) = true
  /\ Helpers.get_pagination Samples.positive_fields (Some (-2)%Z) None
     = Raise "Input should be greater than 0"
  /\ ~ exists r,
        Helpers.get_pagination Samples.positive_fields (Some (-2)%Z) None
        = Return r.
Proof.
  repeat split. intros [r H]. discriminate H.
Qed.

(** C5 as stated fails: no settings make [get_cryptography_service] ask the
    factory for an algorithm other than AES_GCM, although the factory at
    hand offers another one. *)
Lemma no_algorithm_from_configuration :
  cryptography_make "k3y" Demo.Aes_cbc = Return "aes-cbc:k3y"
  /\ ~ exists (settings : CoreSettingsSchema) (w : World) (a : Demo.Algorithm),
         In a (algorithms_requested
                 (new_events w
                    (snd (get_cryptography_service
                            (get_cryptography_service_factory settings) w))))
         /\ a <> Demo.Aes_gcm.
Proof.
  split; [reflexivity|].
  intros (settings & w & a & Hin & Hne).
  rewrite get_cryptography_service_run in Hin.
  cbn [snd] in Hin. rewrite new_events_logged in Hin.
  simpl in Hin. destruct Hin as [<-|[]]. apply Hne. reflexivity.
Qed.

(** Runs of the cache provider. *)
Example get_cache_repository_first_use :
  get_cache_repository
    (Demo.demo_repository (Some "redis://cache") "redis" Demo.local_only)
    Demo.world0
  = (Return "redis@client:redis://cache",
     {| RedisManager_redis := Some "client:redis://cache";
        CacheManager_cache_repository := Some "redis@client:redis://cache";
        events := [ CallRedisManagerInit "redis://cache";
                    OpenRedisConnection "redis://cache";
                    CallCacheManagerInit "redis"
                      (Some "client:redis://cache") ] |}).
Proof. reflexivity. Qed.

Example get_cache_repository_published :
  get_cache_repository
    (Demo.demo_repository None "redis" Demo.local_only)
    {| RedisManager_redis := None;
       CacheManager_cache_repository := Some "memory";
       events := [] |}
  = (Return "memory",
     {| RedisManager_redis := None;
        CacheManager_cache_repository := Some "memory";
        events := [] |}).
Proof. reflexivity. Qed.

Example get_broker_repository_direct_call :
  get_broker_repository (Demo.demo_repository None "redis" Demo.local_only)
    Demo.world0
  = (Return "broker:kafka:9092",
     logged Demo.world0 [CallBrokerMakeStatic "kafka:9092"]).
Proof. reflexivity. Qed.

End Runs.

(** ** Nested form data *)

Module FormFacts.
Import Form.

Lemma append_empty_r (a : string) : a ++ "" = a.
Proof. induction a as [|c a IH]; simpl; [reflexivity | rewrite IH; reflexivity]. Qed.

Lemma replace_open_bracket_app (a b : string) :
  replace_open_bracket (a ++ b)
  = replace_open_bracket a ++ replace_open_bracket b.
Proof. induction a as [|c a IH]; simpl; [reflexivity | rewrite IH; reflexivity]. Qed.

Lemma remove_close_bracket_app (a b : string) :
  remove_close_bracket (a ++ b)
  = remove_close_bracket a ++ remove_close_bracket b.
Proof.
  induction a as [|c a IH]; simpl; [reflexivity|].
  destruct (Ascii.eqb c "]"); simpl; rewrite IH; reflexivity.
Qed.

Lemma dot_key_app (a b : string) : dot_key (a ++ b) = dot_key a ++ dot_key b.
Proof.
  unfold dot_key. rewrite replace_open_bracket_app.
  apply remove_close_bracket_app.
Qed.

Lemma replace_open_bracket_clean (k : string) :
  occurs "[" (replace_open_bracket k) = false.
Proof.
  induction k as [|c k IH]; simpl; [reflexivity|].
  rewrite IH, orb_false_r.
  destruct (Ascii.eqb_spec c "["%char) as [->|Hc]; [reflexivity|].
  apply Ascii.eqb_neq. exact Hc.
Qed.

Lemma remove_close_bracket_keeps (c : ascii) (k : string) :
  occurs c k = false -> occurs c (remove_close_bracket k) = false.
Proof.
  induction k as [|c' k IH]; simpl; [reflexivity|].
  intros H. apply orb_false_iff in H as [Hc Hk].
  destruct (Ascii.eqb c' "]"); simpl; [apply IH; exact Hk|].
  rewrite Hc, (IH Hk). reflexivity.
Qed.

Lemma remove_close_bracket_clean (k : string) :
  occurs "]" (remove_close_bracket k) = false.
Proof.
  induction k as [|c k IH]; simpl; [reflexivity|].
  destruct (Ascii.eqb c "]") eqn:Hc; simpl; [exact IH|].
  rewrite Hc, IH. reflexivity.
Qed.

Lemma replace_open_bracket_id (k : string) :
  occurs "[" k = false -> replace_open_bracket k = k.
Proof.
  induction k as [|c k IH]; simpl; [reflexivity|].
  intros H. apply orb_false_iff in H as [Hc Hk].
  rewrite Hc, (IH Hk). reflexivity.
Qed.

Lemma remove_close_bracket_id (k : string) :
  occurs "]" k = false -> remove_close_bracket k = k.
Proof.
  induction k as [|c k IH]; simpl; [reflexivity|].
  intros H. apply orb_false_iff in H as [Hc Hk].
  rewrite Hc, (IH Hk). reflexivity.
Qed.

Lemma dot_key_clean (k : string) :
  occurs "[" (dot_key k) = false /\ occurs "]" (dot_key k) = false.
Proof.
  split; unfold dot_key.
  - apply remove_close_bracket_keeps. apply replace_open_bracket_clean.
  - apply remove_close_bracket_clean.
Qed.

(** X1: a rewritten key holds neither bracket, and rewriting once more
    changes nothing. *)
Theorem dot_key_bracket_free (k : string) :
  occurs "[" (dot_key k) = false
  /\ occurs "]" (dot_key k) = false
  /\ dot_key (dot_key k) = dot_key k.
Proof.
  destruct (dot_key_clean k) as [Ho Hc].
  repeat split; try assumption.
  unfold dot_key at 1.
  rewrite (replace_open_bracket_id _ Ho).
  apply remove_close_bracket_id. exact Hc.
Qed.

(** X2: a key without brackets is left as it is. *)
Theorem dot_key_plain (k : string)
  (Hopen : occurs "[" k = false) (Hclose : occurs "]" k = false) :
  dot_key k = k.
Proof.
  unfold dot_key. rewrite (replace_open_bracket_id _ Hopen).
  apply remove_close_bracket_id. exact Hclose.
Qed.

(** X3: bracket notation and dot notation give the same key, so the two
    spellings of one path cannot be told apart after the rewrite. *)
Theorem dot_key_bracket_is_dot (a b : string) :
  dot_key (a ++ "[" ++ b ++ "]") = dot_key a ++ "." ++ dot_key b
  /\ dot_key (a ++ "." ++ b) = dot_key a ++ "." ++ dot_key b.
Proof.
  split.
  - rewrite dot_key_app.
    change ("[" ++ b ++ "]") with (String "[" (b ++ "]")).
    change (dot_key (String "[" (b ++ "]")))
      with (String "." (dot_key (b ++ "]"))).
    rewrite dot_key_app.
    change (dot_key "]") with "".
    rewrite (append_empty_r (dot_key b)). reflexivity.
  - rewrite dot_key_app. reflexivity.
Qed.

Section DictionaryFacts.

Variable V : Type.

Lemma dict_get_set (d : dict V) (k k' : string) (v : V) :
  dict_get (dict_set d k v) k'
  = if String.eqb k k' then Some v else dict_get d k'.
Proof.
  induction d as [|[k0 v0] d IH]; simpl; [reflexivity|].
  destruct (String.eqb_spec k0 k) as [->|Hk0]; simpl.
  - destruct (String.eqb k k'); reflexivity.
  - rewrite IH.
    destruct (String.eqb_spec k0 k') as [->|Hk']; [|reflexivity].
    destruct (String.eqb_spec k k') as [->|_]; [contradiction | reflexivity].
Qed.

Lemma in_keys_dict_set (d : dict V) (k k' : string) (v : V) :
  In k' (keys (dict_set d k v)) <-> k' = k \/ In k' (keys d).
Proof.
  induction d as [|[k0 v0] d IH]; simpl.
  - intuition.
  - destruct (String.eqb_spec k0 k) as [->|Hk0]; simpl.
    + intuition.
    + rewrite IH. intuition.
Qed.

Lemma NoDup_dict_set (d : dict V) (k : string) (v : V) :
  NoDup (keys d) -> NoDup (keys (dict_set d k v)).
Proof.
  induction d as [|[k0 v0] d IH]; simpl; intros H.
  - constructor; [intros [] | constructor].
  - destruct (String.eqb_spec k0 k) as [->|Hk0]; simpl; [exact H|].
    inversion H as [|? ? Hnotin Hrest]; subst.
    constructor; [|apply IH; exact Hrest].
    intros Hin. apply in_keys_dict_set in Hin as [Heq|Hin];
      [apply Hk0; exact Heq | apply Hnotin; exact Hin].
Qed.

Lemma dot_data_snoc (items : list (string * V)) (kv : string * V) :
  dot_data (items ++ [kv])
  = dict_set (dot_data items) (dot_key (fst kv)) (snd kv).
Proof. unfold dot_data, dot_data_from. rewrite fold_left_app. reflexivity. Qed.

(** X4: the flat dictionary has each rewritten key once, every key free of
    brackets, and under a key the value of the last form item whose key
    rewrites to it: of two items that collide the later one wins. *)
Theorem dot_data_last_wins (items : list (string * V)) :
  NoDup (keys (dot_data items))
  /\ Forall (fun k => occurs "[" k = false /\ occurs "]" k = false)
       (keys (dot_data items))
  /\ forall k',
       dict_get (dot_data items) k'
       = option_map snd
           (find (fun kv => String.eqb (dot_key (fst kv)) k') (rev items)).
Proof.
  induction items as [|kv items IH] using rev_ind.
  - repeat split; [constructor | constructor].
  - destruct IH as (Hnodup & Hclean & Hget).
    rewrite dot_data_snoc. repeat split.
    + apply NoDup_dict_set. exact Hnodup.
    + apply Forall_forall. intros k Hin.
      apply in_keys_dict_set in Hin as [->|Hin].
      * apply dot_key_clean.
      * rewrite Forall_forall in Hclean. apply Hclean. exact Hin.
    + intros k'. rewrite dict_get_set, rev_app_distr. simpl.
      destruct (String.eqb (dot_key (fst kv)) k'); [reflexivity | apply Hget].
Qed.

Lemma dict_set_middle (pre rest : dict V) (k : string) (v0 v : V) :
  ~ In k (keys pre) ->
  dict_set (pre ++ (k, v0) :: rest)%list k v = (pre ++ (k, v) :: rest)%list.
Proof.
  induction pre as [|[k1 v1] pre IH]; simpl; intros Hnotin.
  - rewrite String.eqb_refl. reflexivity.
  - destruct (String.eqb_spec k1 k) as [->|_].
    + exfalso. apply Hnotin. left. reflexivity.
    + rewrite IH; [reflexivity|]. intros Hin. apply Hnotin. right. exact Hin.
Qed.

End DictionaryFacts.

Lemma comprehension_each {E A B} (f : A -> Outcome E B) xs ys :
  comprehension f xs = Return ys -> Forall2 (fun x y => f x = Return y) xs ys.
Proof.
  revert ys; induction xs as [|x xs IH]; simpl; intros ys H.
  - injection H as <-. constructor.
  - destruct (f x) as [y|e] eqn:Hx; simpl in H; [|discriminate].
    destruct (comprehension f xs) as [zs|e]; simpl in H; [|discriminate].
    injection H as <-. constructor; [exact Hx | apply IH; reflexivity].
Qed.

Section NestedFormFacts.

Variables V D E : Type.
Variable unflatten : dict V -> Outcome E (dict (PyValue V D)).
Variable json_dumps : D -> Outcome E string.

Lemma dump_dicts_from (todo pre : dict (PyValue V D)) :
  NoDup (keys (pre ++ todo)%list) ->
  dump_dicts json_dumps todo (pre ++ todo)%list
  = outcome_bind (comprehension (dumped json_dumps) todo)
      (fun done => Return (pre ++ done)%list).
Proof.
  revert pre; induction todo as [|[k v] todo IH]; intros pre Hnodup.
  - simpl. rewrite app_nil_r. reflexivity.
  - assert (Hnext : forall v',
             NoDup (keys ((pre ++ [(k, v')]) ++ todo)%list)).
    { intros v'. rewrite <- app_assoc. simpl.
      unfold keys in *. rewrite map_app in *. exact Hnodup. }
    assert (Hskip : forall v',
             dump_dicts json_dumps todo ((pre ++ [(k, v')]) ++ todo)%list
             = outcome_bind
                 (outcome_bind (comprehension (dumped json_dumps) todo)
                    (fun ys => Return ((k, v') :: ys)))
                 (fun done => Return (pre ++ done)%list)).
    { intros v'. rewrite (IH _ (Hnext v')).
      destruct (comprehension (dumped json_dumps) todo) as [ys|e]; simpl;
        [rewrite <- app_assoc|]; reflexivity. }
    destruct v as [v|x|text].
    + simpl. rewrite <- (Hskip (FormValue D v)), <- app_assoc. reflexivity.
    + simpl. destruct (json_dumps x) as [text|e]; simpl; [|reflexivity].
      rewrite dict_set_middle.
      * rewrite <- (Hskip (StrValue V D text)), <- app_assoc. reflexivity.
      * unfold keys in Hnodup. rewrite map_app in Hnodup. simpl in Hnodup.
        apply NoDup_remove_2 in Hnodup. intros Hin. apply Hnodup.
        apply in_or_app. left. exact Hin.
    + simpl. rewrite <- (Hskip (StrValue V D text)), <- app_assoc. reflexivity.
Qed.

Lemma get_nested_form_data_unfold (form_items : list (string * V))
  (Hdict : forall nested,
      unflatten (dot_data form_items) = Return nested ->
      NoDup (keys nested)) :
  get_nested_form_data unflatten json_dumps form_items
  = outcome_bind (unflatten (dot_data form_items))
      (comprehension (dumped json_dumps)).
Proof.
  unfold get_nested_form_data.
  destruct (unflatten (dot_data form_items)) as [nested|e] eqn:Hu;
    simpl; [|reflexivity].
  pose proof (dump_dicts_from nested [] (Hdict nested eq_refl)) as Hloop.
  cbn [app] in Hloop. rewrite Hloop.
  destruct (comprehension (dumped json_dumps) nested); reflexivity.
Qed.

(** X5: with [unflatten] giving a dictionary (no key twice), the loop that
    overwrites entries while it walks the dictionary does what a pass over
    the items does: every item is kept or replaced on its own, in order,
    and the first [json.dumps] that raises ends the call with its
    exception; an exception of [unflatten] is passed on as well. *)
Theorem get_nested_form_data_itemwise (form_items : list (string * V))
  (Hdict : forall nested,
      unflatten (dot_data form_items) = Return nested ->
      NoDup (keys nested)) :
  get_nested_form_data unflatten json_dumps form_items
  = outcome_bind (unflatten (dot_data form_items))
      (comprehension (dumped json_dumps)).
Proof. exact (get_nested_form_data_unfold form_items Hdict). Qed.

(** X6: what is returned has the keys of the unflattened dictionary in
    their order and no dictionary among its values: a dictionary has become
    the text [json.dumps] gave for it, any other value is untouched. *)
Theorem get_nested_form_data_no_dict (form_items : list (string * V))
  (result : dict (PyValue V D))
  (Hdict : forall nested,
      unflatten (dot_data form_items) = Return nested ->
      NoDup (keys nested))
  (Hresult : get_nested_form_data unflatten json_dumps form_items
             = Return result) :
  exists nested,
    unflatten (dot_data form_items) = Return nested
    /\ keys result = keys nested
    /\ Forall (fun item => is_dict (snd item) = false) result
    /\ Forall2
         (fun before after =>
            match snd before with
            | DictValue _ x =>
                exists text, json_dumps x = Return text
                             /\ after = (fst before, StrValue V D text)
            | _ => after = before
            end)
         nested result.
Proof.
  rewrite (get_nested_form_data_unfold form_items Hdict) in Hresult.
  destruct (unflatten (dot_data form_items)) as [nested|e];
    simpl in Hresult; [|discriminate].
  exists nested. split; [reflexivity|].
  apply comprehension_each in Hresult.
  clear Hdict. induction Hresult as [|[k v] after nested result Hd _ IH].
  - repeat split; constructor.
  - destruct IH as (Hkeys & Hnodict & Hrel).
    assert (Hone : fst after = k /\ is_dict (snd after) = false
                   /\ match v with
                      | DictValue _ x =>
                          exists text, json_dumps x = Return text
                                       /\ after = (k, StrValue V D text)
                      | _ => after = (k, v)
                      end).
    { destruct v as [v|x|text]; simpl in Hd.
      - injection Hd as <-. repeat split.
      - destruct (json_dumps x) as [text|e] eqn:Hx; simpl in Hd;
          [|discriminate].
        injection Hd as <-. repeat split. exists text. split; reflexivity.
      - injection Hd as <-. repeat split. }
    destruct Hone as (Hk & Hnd & Hshape).
    repeat split.
    + simpl. rewrite Hk, Hkeys. reflexivity.
    + constructor; assumption.
    + constructor; [exact Hshape | exact Hrel].
Qed.

End NestedFormFacts.

End FormFacts.

(** ** More on the request helpers *)

Module HelpersMore.
Import Helpers SortingCount.

Section PaginationMore.

Variable ValidationError : Type.
Variable validation : Z -> Z -> option ValidationError.

(** X7: whatever the constructor accepts, a record that [get_pagination]
    returns has neither a page nor a page size of zero, and handing its two
    values back to [get_pagination] returns the same record. *)
Theorem get_pagination_never_zero (p ps : option Z)
  (r : PaginationRequestSchema)
  (Hreturn : get_pagination validation p ps = Return r) :
  page r <> 0%Z
  /\ page_size r <> 0%Z
  /\ get_pagination validation (Some (page r)) (Some (page_size r))
     = Return r.
Proof.
  assert (Hnz : forall x d, d <> 0%Z -> or_int x d <> 0%Z).
  { intros [n|] d Hd; simpl; [|exact Hd].
    destruct (Z.eqb_spec n 0); assumption. }
  assert (Hfix : forall z, z <> 0%Z -> forall d, or_int (Some z) d = z).
  { intros z Hz d. simpl.
    destruct (Z.eqb_spec z 0); [contradiction|reflexivity]. }
  unfold get_pagination, PaginationRequestSchema_init in *.
  destruct (validation (or_int p 1) (or_int ps 10)) eqn:Hv; [discriminate|].
  injection Hreturn as <-. cbn [page page_size].
  assert (Hp : or_int p 1 <> 0%Z) by (apply Hnz; discriminate).
  assert (Hs : or_int ps 10 <> 0%Z) by (apply Hnz; discriminate).
  repeat split; try assumption.
  rewrite (Hfix _ Hp), (Hfix _ Hs), Hv. reflexivity.
Qed.

End PaginationMore.

Section SortingMore.

Variable snakecase : string -> string.

Lemma no_empty_field (xs : list string) :
  existsb is_empty xs = false -> Forall (fun s => s <> "") xs.
Proof.
  induction xs as [|s xs IH]; simpl; intros H; constructor.
  - destruct s; [discriminate | discriminate].
  - apply IH. destruct (is_empty s); [discriminate | exact H].
Qed.

Lemma some_empty_field (xs : list string) :
  existsb is_empty xs = true -> In "" xs.
Proof.
  induction xs as [|s xs IH]; simpl; [discriminate|].
  destruct s as [|c s]; simpl; [left; reflexivity|].
  intros H. right. apply IH. exact H.
Qed.

(** X8: the whole behaviour of [get_sorting].  [None] and the empty string
    give the empty list; a string with an empty field between, before or
    after its commas raises [IndexError], and nothing else is ever raised;
    any other string gives its fields converted, in order. *)
Theorem get_sorting_outcome (sorting : option string) :
  get_sorting snakecase sorting
  = match sorting with
    | None => Return []
    | Some s =>
        if is_empty s then Return []
        else if existsb is_empty (split_comma s) then Raise IndexError
        else Return (map (converted snakecase) (split_comma s))
    end.
Proof.
  destruct sorting as [[|c rest]|]; try reflexivity.
  unfold get_sorting; simpl truthy_str; simpl negb; cbv iota.
  simpl is_empty; cbv iota.
  destruct (existsb is_empty (split_comma (String c rest))) eqn:He.
  - apply HelpersFacts.comprehension_empty_field.
    apply some_empty_field. exact He.
  - apply HelpersFacts.comprehension_fields_ok.
    apply no_empty_field. exact He.
Qed.

Lemma split_comma_length (s : string) :
  length (split_comma s) = S (count_commas s).
Proof.
  induction s as [|c s IH]; simpl; [reflexivity|].
  destruct (Ascii.eqb c ","); simpl; [rewrite IH; reflexivity|].
  destruct (split_comma s) as [|piece pieces]; simpl in *; [discriminate|].
  exact IH.
Qed.

(** X9: when [get_sorting] returns for a non-empty string, it returns one
    field more than the string has commas. *)
Theorem get_sorting_field_count (s : string) (fields : list string)
  (Hs : s <> "")
  (Hreturn : get_sorting snakecase (Some s) = Return fields) :
  length fields = S (count_commas s).
Proof.
  destruct s as [|c rest]; [contradiction|].
  unfold get_sorting in Hreturn; simpl truthy_str in Hreturn;
    simpl negb in Hreturn; cbv iota in Hreturn.
  apply HelpersFacts.comprehension_length in Hreturn.
  rewrite Hreturn. apply split_comma_length.
Qed.

End SortingMore.

End HelpersMore.

(** ** Sequences of provider calls *)

Module SequenceFacts.
Import Depends Sequences DependsFacts.

Section Invariants.

Context {X : Externals}.

Ltac open_run :=
  unfold settings_get, storage_make, CacheManager_init, bind, emit, call,
    ret, raise, read_redis, write_redis, read_cache_repository,
    write_cache_repository, propagate, logged.








Lemma get_cache_repository_core_fails
  (sr : SettingsRepositoryProtocol) (w : World) (x : ExternalError)
  (Hst : get sr Schema_CoreSettings = Raise x) :
  get_cache_repository sr w = (Raise (External x), w).
Proof.
  unfold get_cache_repository, settings_get.
  unfold bind at 1. unfold call at 1. rewrite Hst. reflexivity.
Qed.

Lemma get_cache_repository_cache_settings_fail
  (sr : SettingsRepositoryProtocol) (w : World)
  (st : CoreSettingsSchema) (x : ExternalError)
  (Hst : get sr Schema_CoreSettings = Return st)
  (Hcs : get sr Schema_CoreCacheSettings = Raise x) :
  get_cache_repository sr w = (Raise (External x), after_redis st w).
Proof.
  unfold get_cache_repository, settings_get, after_redis.
  unfold bind at 1. unfold call at 1. rewrite Hst.
  destruct (redis_dsn st) as [dsn|].
  - unfold bind at 1. rewrite RedisManager_init_run. cbn [snd].
    open_run. rewrite Hcs. reflexivity.
  - open_run. rewrite Hcs. reflexivity.
Qed.

(** X10: how [get_cache_repository] fails on its settings.  When the core
    settings cannot be read the exception is passed on and nothing has
    happened; when the cache settings cannot be read the exception is passed
    on after [RedisManager.init] has run for a configured DSN, so the Redis
    handle is published all the same, and [CacheManager.init] has not been
    called. *)
Theorem get_cache_repository_settings_failure
  (sr : SettingsRepositoryProtocol) (w : World) :
  (forall x, get sr Schema_CoreSettings = Raise x ->
     get_cache_repository sr w = (Raise (External x), w))
  /\ (forall st x dsn,
        get sr Schema_CoreSettings = Return st ->
        get sr Schema_CoreCacheSettings = Raise x ->
        redis_dsn st = Some dsn ->
        let out := get_cache_repository sr w in
        fst out = Raise (External x)
        /\ RedisManager_redis (snd out) = Some (redis_published dsn w)
        /\ CacheManager_cache_repository (snd out)
           = CacheManager_cache_repository w
        /\ cache_init_calls (new_events w (snd out)) = []
        /\ redis_init_calls (new_events w (snd out)) = [dsn]).
Proof.
  split.
  - intros x Hst. apply get_cache_repository_core_fails. exact Hst.
  - intros st x dsn Hst Hcs Hdsn. cbv zeta.
    rewrite (get_cache_repository_cache_settings_fail sr w Hst Hcs).
    unfold after_redis. rewrite Hdsn, RedisManager_init_run.
    cbn [fst snd RedisManager_redis CacheManager_cache_repository].
    unfold new_events. cbn [events]. rewrite skipn_prefix.
    unfold redis_init_events.
    destruct (RedisManager_redis w); repeat split.
Qed.



Lemma get_settings_repository_run
  (factory : SettingsRepositoryFactoryProtocol) (w : World) :
  get_settings_repository factory w
  = (propagate (settings_make factory ENV), w).
Proof.
  unfold get_settings_repository. open_run.
  destruct (settings_make factory ENV); reflexivity.
Qed.

Lemma get_settings_run (sr : SettingsRepositoryProtocol) (w : World) :
  get_settings sr w = (propagate (get sr Schema_CoreSettings), w).
Proof.
  unfold get_settings. open_run.
  destruct (get sr Schema_CoreSettings); reflexivity.
Qed.

Lemma get_broker_repository_world
  (sr : SettingsRepositoryProtocol) (w : World) :
  snd (get_broker_repository sr w)
  = match get sr Schema_CoreKafkaSettings with
    | Return kafka => logged w [CallBrokerMakeStatic kafka]
    | Raise _ => w
    end.
Proof.
  unfold get_broker_repository. open_run.
  destruct (get sr Schema_CoreKafkaSettings) as [kafka|x]; [|reflexivity].
  destruct (make_static kafka); reflexivity.
Qed.

(** What a run of [get_storage_repository] leaves and returns: nothing
    logged, or one call of the factory whose result is handed on. *)
Lemma get_storage_repository_cases
  (sr : SettingsRepositoryProtocol) (f : StorageRepositoryFactoryProtocol)
  (w : World) :
  (exists e, get_storage_repository sr f w = (Raise e, w))
  \/ (exists type params,
        well_paired type params = true
        /\ get_storage_repository sr f w
           = (propagate (make f type params),
              logged w [CallStorageFactoryMake type params])).
Proof.
  destruct (get sr Schema_CoreStorageSettings) as [cfg|x] eqn:Hcfg.
  2:{ left. eexists. apply (get_storage_repository_no_settings sr f w Hcfg). }
  rewrite (get_storage_repository_run sr f w Hcfg).
  destruct (String.eqb (provider cfg) "s3"), (s3 cfg) as [block|];
    try (destruct (String.eqb (provider cfg) "local"), (dir cfg) as [d|]);
    try (destruct (model_validate (model_dump block)) as [params|y]);
    try (left; eexists; reflexivity);
    right; do 2 eexists; (split; [|reflexivity]); reflexivity.
Qed.







(** X14: [get_storage_repository] calls the storage factory at most once,
    always with a discriminator and a parameter record that go together (S3
    with S3 parameters, LOCAL with a path), and every instance it returns
    is the one that call of the factory gave. *)
Theorem get_storage_repository_factory_calls
  (sr : SettingsRepositoryProtocol) (f : StorageRepositoryFactoryProtocol)
  (w : World) :
  let out := get_storage_repository sr f w in
  let log := new_events w (snd out) in
  (log = [] /\ (exists e, fst out = Raise e)
   \/ exists type params,
        log = [CallStorageFactoryMake type params]
        /\ well_paired type params = true
        /\ fst out = propagate (make f type params))
  /\ forall instance, fst out = Return instance ->
       exists type params,
         log = [CallStorageFactoryMake type params]
         /\ make f type params = Return instance.
Proof.
  cbv zeta.
  destruct (get_storage_repository_cases sr f w)
    as [[e ->]|(type & params & Hpair & ->)]; cbn [fst snd].
  - rewrite new_events_same. split.
    + left. split; [reflexivity | exists e; reflexivity].
    + discriminate.
  - rewrite new_events_logged. split.
    + right. exists type, params. repeat split. exact Hpair.
    + intros instance Hret. exists type, params. split; [reflexivity|].
      unfold propagate in Hret.
      destruct (make f type params);
        [injection Hret as ->; reflexivity | discriminate].
Qed.

(** X15: the providers of the settings repository, the settings, the broker
    and the cryptography service leave both manager handles as they found
    them and log no call of a manager. *)
Theorem other_providers_frame (w : World)
  (settings_factory : SettingsRepositoryFactoryProtocol)
  (sr : SettingsRepositoryProtocol)
  (crypto_factory : CryptographyServiceFactory) :
  let untouched w' :=
    RedisManager_redis w' = RedisManager_redis w
    /\ CacheManager_cache_repository w' = CacheManager_cache_repository w
    /\ existsb is_manager_event (new_events w w') = false in
  untouched (snd (get_settings_repository settings_factory w))
  /\ untouched (snd (get_settings sr w))
  /\ untouched (snd (get_broker_repository sr w))
  /\ untouched (snd (get_cryptography_service crypto_factory w)).
Proof.
  cbv zeta.
  rewrite get_settings_repository_run, get_settings_run,
    get_broker_repository_world, get_cryptography_service_run.
  cbn [snd]. rewrite new_events_same, new_events_logged.
  destruct (get sr Schema_CoreKafkaSettings) as [kafka|x];
    rewrite ?new_events_same, ?new_events_logged; repeat split.
Qed.

End Invariants.

End SequenceFacts.

(** ** Parameters of the providers *)

Module SignatureFacts.
Import Graph Signatures.

Ltac each_registered H :=
  simpl in H;
  repeat (destruct H as [<-|H]; [|]); [..|contradiction].

Ltac each_parameter Hps Hp tac :=
  simpl in Hps; try discriminate Hps; injection Hps as <-;
  simpl in Hp; repeat (destruct Hp as [<-|Hp]; [tac|]); contradiction.

Lemma function_needs_rank (a b : Capability) :
  function_needs a b -> rank b < rank a.
Proof.
  intros (m & ps & Hin & <- & Hps & Hp).
  each_registered Hin; each_parameter Hps Hp ltac:(simpl; lia).
Qed.

Lemma function_needs_scope (a b : Capability) :
  function_needs a b -> scope_of a = Some APP -> scope_of b = Some APP.
Proof.
  intros (m & ps & Hin & <- & Hps & Hp).
  each_registered Hin; intros Ha; try discriminate Ha;
    each_parameter Hps Hp ltac:(reflexivity).
Qed.

(** X16: no capability has two providers, so looking a capability up finds
    the one registered member that produces it. *)
Theorem registered_capabilities_unique :
  NoDup (map produces registered)
  /\ Forall (fun m => provider_for (produces m) = Some m) registered.
Proof.
  split.
  - simpl. repeat (constructor; [simpl; intuition discriminate|]).
    constructor.
  - repeat constructor.
Qed.

(** X17: every capability a registered provider function asks for has a
    registered provider of its own, and no function of the class asks for
    the broker. *)
Theorem parameters_are_provided :
  Forall (fun m => forall ps, parameters m = Some ps ->
                   Forall (fun p => provider_for p <> None) ps)
    registered
  /\ Forall (fun m => forall ps, parameters m = Some ps ->
                      ~ In KafkaBroker ps)
       CoreProvider_body.
Proof.
  split; apply Forall_forall; intros m Hin ps Hps.
  - each_registered Hin; simpl in Hps; try discriminate Hps;
      injection Hps as <-; repeat constructor; discriminate.
  - simpl in Hin.
    repeat (destruct Hin as [<-|Hin]; [|]); [..|contradiction];
      simpl in Hps; try discriminate Hps; injection Hps as <-;
      simpl; intuition discriminate.
Qed.

(** X18: no provider function of this file needs its own product through
    provider functions alone: along every chain of function parameters the
    rank falls, so the end of such a chain is never its start.  Chains
    through the constructor of a class provider are not covered. *)
Theorem no_dependency_cycle (a b : Capability)
  (Hchain : function_needs_transitively a b) :
  rank b < rank a /\ a <> b.
Proof.
  assert (Hrank : rank b < rank a).
  { induction Hchain as [a b H|a b c H _ IH].
    - apply function_needs_rank. exact H.
    - apply function_needs_rank in H. lia. }
  split; [exact Hrank|].
  intros ->. lia.
Qed.

(** X19: whatever a provider function of APP scope needs, directly or
    through further provider functions, is of APP scope too: no function
    that builds an object for the whole process is handed an object of one
    unit of work.  What the constructors of the class providers take is not
    covered. *)
Theorem app_scope_closed (a b : Capability)
  (Hchain : function_needs_transitively a b)
  (Happ : scope_of a = Some APP) :
  scope_of b = Some APP.
Proof.
  induction Hchain as [a b H|a b c H _ IH].
  - exact (function_needs_scope H Happ).
  - apply IH. exact (function_needs_scope H Happ).
Qed.

End SignatureFacts.

(** ** Further runs on explicit inputs *)

Module ExtraRuns.
Import Depends Sequences Demo.
Local Open Scope list_scope.

Lemma dot_key_plain_witness : Form.dot_key "title" = "title".
Proof. exact (FormFacts.dot_key_plain "title" eq_refl eq_refl). Defined.

Lemma sample_unflatten_is_dict :
  forall nested,
    Samples.sample_unflatten (Form.dot_data Samples.sample_form)
    = Return nested ->
    NoDup (Form.keys nested).
Proof.
  intros nested H. vm_compute in H. injection H as <-.
  repeat (constructor; [simpl; intuition discriminate|]). constructor.
Defined.

Lemma get_nested_form_data_itemwise_witness :
  Form.get_nested_form_data Samples.sample_unflatten Samples.sample_dumps
    Samples.sample_form
  = Return [ ("title", Form.FormValue _ "report");
             ("user", Form.StrValue _ _ "name=bob;age=41;.") ].
Proof.
  rewrite (FormFacts.get_nested_form_data_itemwise
             Samples.sample_unflatten Samples.sample_dumps
             Samples.sample_form sample_unflatten_is_dict).
  reflexivity.
Defined.

Lemma get_nested_form_data_no_dict_witness :
  exists nested,
    Samples.sample_unflatten (Form.dot_data Samples.sample_form)
    = Return nested
    /\ Form.keys nested = ["title"; "user"].
Proof.
  destruct (FormFacts.get_nested_form_data_no_dict
              Samples.sample_unflatten Samples.sample_dumps
              Samples.sample_form
              (result := [ ("title", Form.FormValue _ "report");
                           ("user", Form.StrValue _ _ "name=bob;age=41;.") ])
              sample_unflatten_is_dict eq_refl)
    as (nested & Hu & Hkeys & _).
  exists nested. split; [exact Hu | symmetry; exact Hkeys].
Defined.

Lemma get_pagination_never_zero_witness :
  Helpers.get_pagination Samples.positive_fields (Some 1%Z) (Some 25%Z)
  = Return {| Helpers.page := 1; Helpers.page_size := 25 |}.
Proof.
  exact (proj2 (proj2 (HelpersMore.get_pagination_never_zero
                         Samples.positive_fields (Some 0%Z) (Some 25%Z)
                         eq_refl))).
Defined.

Lemma get_sorting_field_count_witness :
  length ["created_at"; "-name"] = 2.
Proof.
  exact (HelpersMore.get_sorting_field_count (fun s => s)
           (s := "created_at,-name") (fields := ["created_at"; "-name"])
           ltac:(discriminate) eq_refl).
Defined.



Lemma cryptography_service_needs_factory_protocol :
  Signatures.function_needs_transitively Graph.CryptographyServiceProtocol
    Graph.SettingsRepositoryFactoryProtocol.
Proof.
  apply Signatures.needs_trans with (b := Graph.CryptographyServiceFactory).
  { exists (Graph.Build_Member "get_cryptography_service"
              Graph.CryptographyServiceProtocol
              (Graph.Provide (Some Graph.APP))),
           [Graph.CryptographyServiceFactory].
    simpl. auto 20. }
  apply Signatures.needs_trans with (b := Graph.CoreSettingsSchema).
  { exists (Graph.Build_Member "get_cryptography_service_factory"
              Graph.CryptographyServiceFactory
              (Graph.Provide (Some Graph.APP))),
           [Graph.CoreSettingsSchema].
    simpl. auto 20. }
  apply Signatures.needs_trans with (b := Graph.SettingsRepositoryProtocol).
  { exists (Graph.Build_Member "get_settings" Graph.CoreSettingsSchema
              (Graph.Provide (Some Graph.APP))),
           [Graph.SettingsRepositoryProtocol].
    simpl. auto 20. }
  apply Signatures.needs_step.
  exists (Graph.Build_Member "get_settings_repository"
            Graph.SettingsRepositoryProtocol
            (Graph.Provide (Some Graph.APP))),
         [Graph.SettingsRepositoryFactoryProtocol].
  simpl. auto 20.
Defined.

Lemma no_dependency_cycle_witness :
  Signatures.rank Graph.SettingsRepositoryFactoryProtocol
  < Signatures.rank Graph.CryptographyServiceProtocol.
Proof.
  exact (proj1 (SignatureFacts.no_dependency_cycle
                  cryptography_service_needs_factory_protocol)).
Defined.

Lemma app_scope_closed_witness :
  Signatures.scope_of Graph.SettingsRepositoryFactoryProtocol
  = Some Graph.APP.
Proof.
  exact (SignatureFacts.app_scope_closed
           cryptography_service_needs_factory_protocol eq_refl).
Defined.

End ExtraRuns.
